(** * TailEase: a shallow embedding of [src/TailEase.js]

    The script asks for a project name, runs three external commands,
    patches [vite.config.js] by text substitution and overwrites two CSS
    files.  The embedding has three layers:

    - [JsString]: JavaScript strings as lists of UTF-16 code units, with
      the string primitives the script calls ([trim], [includes],
      [replace] with a string pattern, [replace] with the regular
      expression [/plugins:\s*\[/]);
    - [Path]: the POSIX behaviour of Node's [path.join];
    - [TailEase]: the script itself, as a state-and-exception monad over
      an explicit world (the input as readline delivers it, the file
      system, the external processes) that records every observable
      action in a trace. *)

From Stdlib Require Import String Ascii.
From stdpp Require Import base option list gmap.
From Stdlib Require Import NArith ZArith Lia.

Local Open Scope list_scope.

(** ** JavaScript strings *)

Module JsString.

(** A string is a sequence of UTF-16 code units. *)
Abbreviation jsstring := (list N).

(** [lit s] is the string literal [s] (ASCII only). *)
Definition lit (s : string) : jsstring :=
  List.map N_of_ascii (list_ascii_of_string s).

Definition NL : jsstring := [10%N].
Definition DQUOTE : jsstring := [34%N].

(** [WhiteSpace] and [LineTerminator] of ECMAScript: the characters that
    [String.prototype.trim] strips and that [\s] matches. *)
Definition is_space (c : N) : bool :=
  ((9 <=? c) && (c <=? 13) || (c =? 32) || (c =? 160) || (c =? 5760)
   || (8192 <=? c) && (c <=? 8202) || (c =? 8232) || (c =? 8233)
   || (c =? 8239) || (c =? 8287) || (c =? 12288) || (c =? 65279))%N.

Fixpoint trimStart (s : jsstring) : jsstring :=
  match s with
  | c :: s' => if is_space c then trimStart s' else s
  | [] => []
  end.

Definition trimEnd (s : jsstring) : jsstring :=
  reverse (trimStart (reverse s)).

(** [String.prototype.trim]. *)
Definition trim (s : jsstring) : jsstring := trimEnd (trimStart s).

(** JavaScript truthiness of a string: only the empty string is falsy. *)
Definition truthy (s : jsstring) : bool :=
  match s with [] => false | _ :: _ => true end.

Fixpoint startsWith (p s : jsstring) : bool :=
  match p, s with
  | [], _ => true
  | a :: p', b :: s' => (a =? b)%N && startsWith p' s'
  | _ :: _, [] => false
  end.

(** [String.prototype.indexOf]: the least position where [p] occurs. *)
Fixpoint indexOf (s p : jsstring) : option nat :=
  if startsWith p s then Some 0
  else match s with
       | [] => None
       | _ :: s' => S <$> indexOf s' p
       end.

(** [String.prototype.includes]. *)
Definition includes (s p : jsstring) : bool :=
  match indexOf s p with Some _ => true | None => false end.

(** [GetSubstitution] of ECMAScript for a match without capture groups:
    [$$], [$&], [$`] and [$'] are expanded, every other character of the
    replacement template is copied. *)
Fixpoint getSubstitution (matched before after template : jsstring)
  : jsstring :=
  match template with
  | 36%N :: 36%N :: t => 36%N :: getSubstitution matched before after t
  | 36%N :: 38%N :: t => matched ++ getSubstitution matched before after t
  | 36%N :: 96%N :: t => before ++ getSubstitution matched before after t
  | 36%N :: 39%N :: t => after ++ getSubstitution matched before after t
  | c :: t => c :: getSubstitution matched before after t
  | [] => []
  end.

(** Replace the [n] code units at position [i] of [s]. *)
Definition splice (s : jsstring) (i n : nat) (template : jsstring)
  : jsstring :=
  let before := take i s in
  let matched := take n (drop i s) in
  let after := drop (i + n) s in
  before ++ getSubstitution matched before after template ++ after.

(** [String.prototype.replace] with a string pattern: only the first
    occurrence is replaced; without an occurrence the string is returned
    as it is. *)
Definition replace (s p template : jsstring) : jsstring :=
  match indexOf s p with
  | Some i => splice s i (length p) template
  | None => s
  end.

(** *** The regular expression [/plugins:\s*\[/] *)

Definition LBRACKET : N := 91%N.

Fixpoint spanSpaces (s : jsstring) : nat :=
  match s with
  | c :: s' => if is_space c then S (spanSpaces s') else 0
  | [] => 0
  end.

(** A match of the expression that starts at the head of [s]; the result
    is the length of the match.  [\s*] is greedy; giving back white space
    cannot help, since the next atom [\[] is not white space. *)
Definition matchPluginsHere (s : jsstring) : option nat :=
  if startsWith (lit "plugins:") s then
    let rest := drop 8 s in
    let n := spanSpaces rest in
    match drop n rest with
    | c :: _ => if (c =? LBRACKET)%N then Some (8 + n + 1) else None
    | [] => None
    end
  else None.

(** [RegExp.prototype.exec] without flags: the leftmost match, as its
    position and length. *)
Fixpoint searchPlugins (s : jsstring) : option (nat * nat) :=
  match matchPluginsHere s with
  | Some n => Some (0, n)
  | None => match s with
            | [] => None
            | _ :: s' => prod_map S id <$> searchPlugins s'
            end
  end.

(** [s.replace(/plugins:\s*\[/, template)]. *)
Definition replacePlugins (s template : jsstring) : jsstring :=
  match searchPlugins s with
  | Some (i, n) => splice s i n template
  | None => s
  end.

(** *** Specification-side notions *)

(** [p] occurs in [s] as a contiguous substring. *)
Definition occurs (p s : jsstring) : Prop :=
  exists a b, s = a ++ p ++ b.

(** [s] holds a match of [/plugins:\s*\[/]. *)
Definition hasPluginsArray (s : jsstring) : Prop :=
  exists a ws b,
    s = a ++ lit "plugins:" ++ ws ++ [LBRACKET] ++ b
    /\ forallb is_space ws = true.

(** [String.prototype.split] with a one-character separator. *)
Fixpoint split_aux (sep : N) (cur : jsstring) (s : jsstring)
  : list jsstring :=
  match s with
  | [] => [reverse cur]
  | c :: s' => if (c =? sep)%N then reverse cur :: split_aux sep [] s'
               else split_aux sep (c :: cur) s'
  end.

Definition split (sep : N) (s : jsstring) : list jsstring :=
  split_aux sep [] s.

(** The lines of a text, split at line feeds. *)
Definition lines (s : jsstring) : list jsstring := split 10%N s.

(** Boolean test for [sublist]: [s] is [t] with characters deleted. *)
Fixpoint subseqb (s t : jsstring) : bool :=
  match s, t with
  | [], _ => true
  | _ :: _, [] => false
  | a :: s', b :: t' => if (a =? b)%N then subseqb s' t' else subseqb s t'
  end.

End JsString.

Import JsString.

(** ** Node's [path.join] on POSIX *)

Module Path.

Definition SLASH : N := 47%N.

Definition isAbsolute (p : jsstring) : bool :=
  match p with c :: _ => (c =? SLASH)%N | [] => false end.

Definition endsWithSlash (p : jsstring) : bool :=
  match last p with Some c => (c =? SLASH)%N | None => false end.

(** One step of [normalizeString]: [res] is the stack of segments kept so
    far, innermost first. *)
Definition pushSegment (allowAboveRoot : bool) (res : list jsstring)
    (seg : jsstring) : list jsstring :=
  if bool_decide (seg = []) || bool_decide (seg = lit ".") then res
  else if bool_decide (seg = lit "..") then
    match res with
    | top :: res' =>
        if bool_decide (top = lit "..")
        then (if allowAboveRoot then seg :: res else res)
        else res'
    | [] => if allowAboveRoot then [seg] else []
    end
  else seg :: res.

Fixpoint joinWith (sep : jsstring) (l : list jsstring) : jsstring :=
  match l with
  | [] => []
  | [x] => x
  | x :: l' => x ++ sep ++ joinWith sep l'
  end.

Definition normalizeString (p : jsstring) (allowAboveRoot : bool)
  : jsstring :=
  joinWith [SLASH]
    (reverse (fold_left (pushSegment allowAboveRoot) (split SLASH p) [])).

(** [path.posix.normalize]. *)
Definition normalize (p : jsstring) : jsstring :=
  match p with
  | [] => lit "."
  | _ :: _ =>
      let res := normalizeString p (negb (isAbsolute p)) in
      match res with
      | [] => if isAbsolute p then [SLASH]
              else if endsWithSlash p then lit "./" else lit "."
      | _ :: _ =>
          let res := if endsWithSlash p then res ++ [SLASH] else res in
          if isAbsolute p then SLASH :: res else res
      end
  end.

(** [path.posix.join]: empty arguments are skipped, the others are
    glued with [/] and the result is normalised. *)
Definition join (args : list jsstring) : jsstring :=
  match List.filter truthy args with
  | [] => lit "."
  | l => normalize (joinWith [SLASH] l)
  end.

(** A segment that [normalizeString] keeps on its stack. *)
Definition keptSegment (seg : jsstring) : Prop :=
  seg <> [] /\ seg <> lit "." /\ seg <> lit ".." /\ SLASH ∉ seg.

(** The stack of segments that [normalizeString] builds for an absolute
    path, innermost first. *)
Definition stackOf (p : jsstring) : list jsstring :=
  fold_left (pushSegment false) (split SLASH p) [].

End Path.

(** ** The script *)

Module TailEase.

(** *** The world around the script *)

(** What a step can throw. *)
Inductive error : Type :=
| ExecSyncFailed (status : option Z)
    (* thrown by [execSync] when the command does not exit with 0 *)
| CommandFailed (code : option Z)
    (* [new Error(`Command failed with code ${code}`)] *)
| ENOENT (p : jsstring)
| EACCES (p : jsstring).

(** The file system: the text of every file, and the paths on which a
    read or a write is refused. *)
Record fsys : Type := Fsys {
  files : gmap (list N) (list N);
  unreadable : gset (list N);
  unwritable : gset (list N)
}.

(** Every action of the script that the outside can observe, and the
    end of the input where the run depends on it. *)
Inductive event : Type :=
| CreateInterface                       (* readline.createInterface *)
| Question (prompt : jsstring)          (* rl.question *)
| InputEnded                            (* stdin ends while a question is
                                           pending: readline closes the
                                           interface by itself *)
| Close                                 (* rl.close(), called by the script *)
| ConsoleLog (line : jsstring)
| ConsoleError (e : error)
| SpinnerStart (text : jsstring)        (* ora(text).start() *)
| SpinnerSucceed (text : jsstring)      (* spinner.succeed() *)
| SpinnerFail (text : jsstring)         (* spinner.fail() / ora().fail(text) *)
| ExecSync (command cwd : jsstring)
| Exec (command cwd : jsstring)
| ReadFile (p : jsstring)
| WriteFile (p data : jsstring)
| SetTimeout (ms : Z).

(** What the script cannot decide: the working directory, how the module
    was loaded, whether the standard input ends once everything typed has
    been delivered (a pipe or a file, or the user closing the terminal) or
    stays open, and what an external command does to the file system and
    which exit code it has ([None]: killed by a signal). *)
Record world : Type := World {
  cwd : jsstring;                       (* process.cwd() *)
  isGlobal : bool;                      (* require.main !== module *)
  stdinEnds : bool;                     (* 'end' follows the last line *)
  spawn : jsstring -> jsstring -> fsys -> fsys * option Z
}.

(** The input as readline hands it on.  Lines reach the script in chunks;
    readline gives the first line of a chunk to the callback of the
    pending [rl.question] and emits the later lines of that chunk as
    ['line'] events before the script can ask again (the [await] in the
    prompt loop resumes in a later microtask).  The script listens to no
    ['line'] event, so those later lines are lost.  A delivery is a chunk
    that arrives while a question is pending: the line the question gets
    and the lines that are dropped.  Every line is taken to end with a
    newline. *)
Abbreviation delivery := (list N * list (list N))%type.

Record state : Type := State {
  fs : fsys;
  stdin : list delivery;                (* the chunks still to come *)
  trace : list event
}.

(** Every line that is typed, in order, dropped ones included. *)
Definition typedLines (input : list delivery) : list jsstring :=
  concat (map (fun d : delivery => d.1 :: d.2) input).

(** Input that comes one line at a time, as from a user who waits for
    each prompt. *)
Definition lineByLine (typed : list jsstring) : list delivery :=
  map (fun l : jsstring => (l, [])) typed.

(** How a computation ends: with a value, with an exception, by
    [process.exit], or never (a promise that nobody settles). *)
Inductive result (A : Type) : Type :=
| Ok (a : A)
| Throw (e : error)
| Exit (code : Z)
| Pending.
Arguments Ok {A} a.
Arguments Throw {A} e.
Arguments Exit {A} code.
Arguments Pending {A}.

Definition M (A : Type) : Type := state -> result A * state.

Definition ret {A} (a : A) : M A := fun s => (Ok a, s).

Definition bind {A B} (m : M A) (k : A -> M B) : M B :=
  fun s =>
    match m s with
    | (Ok a, s') => k a s'
    | (Throw e, s') => (Throw e, s')
    | (Exit c, s') => (Exit c, s')
    | (Pending, s') => (Pending, s')
    end.

Definition throw {A} (e : error) : M A := fun s => (Throw e, s).

(** [try { m } catch (error) { h error }]. *)
Definition try_catch {A} (m : M A) (h : error -> M A) : M A :=
  fun s =>
    match m s with
    | (Throw e, s') => h e s'
    | r => r
    end.

Definition emit (e : event) : M unit :=
  fun s => (Ok tt, State (fs s) (stdin s) (trace s ++ [e])).

Declare Scope js_scope.
Delimit Scope js_scope with js.
Notation "x <- m ;; k" := (bind m (fun x => k))
  (at level 100, m at next level, right associativity) : js_scope.
Notation "m ;; k" := (bind m (fun _ => k))
  (at level 100, right associativity) : js_scope.
Notation "'TRY' m 'CATCH' e '=>' h" := (try_catch m (fun e => h))
  (at level 100, m at level 100, e name, h at level 100) : js_scope.
Local Open Scope js_scope.

(** *** Terminal colours and the logging helpers *)

Definition ESC : jsstring := [27%N].
Definition RESET : jsstring := ESC ++ lit "[0m".
Definition BRIGHT : jsstring := ESC ++ lit "[1m".
Definition GREEN : jsstring := ESC ++ lit "[32m".
Definition YELLOW : jsstring := ESC ++ lit "[33m".
Definition BLUE : jsstring := ESC ++ lit "[34m".
Definition RED : jsstring := ESC ++ lit "[31m".
Definition CYAN : jsstring := ESC ++ lit "[36m".

Definition DIAMOND : jsstring := [9670%N].   (* U+25C6 *)
Definition CHECK : jsstring := [10004%N].    (* U+2714 *)
Definition CROSS : jsstring := [10006%N].    (* U+2716 *)
Definition BAR : jsstring := [9474%N].       (* U+2502 *)
Definition WARNING : jsstring := [9888%N].   (* U+26A0 *)

Definition stepLine (step message : jsstring) : jsstring :=
  BLUE ++ BRIGHT ++ DIAMOND ++ lit " " ++ step ++ RESET ++ lit " " ++ message.

Definition successLine (message : jsstring) : jsstring :=
  GREEN ++ CHECK ++ lit " " ++ message ++ RESET.

Definition errorLine (message : jsstring) : jsstring :=
  RED ++ CROSS ++ lit " " ++ message ++ RESET.

Definition logStep (step message : jsstring) : M unit :=
  emit (ConsoleLog (stepLine step message)).

Definition logSuccess (message : jsstring) : M unit :=
  emit (ConsoleLog (successLine message)).

Definition logError (message : jsstring) : M unit :=
  emit (ConsoleLog (errorLine message)).

(** *** Primitive operations *)

(** [rl.question]: the callback gets the first line of the next chunk,
    the other lines of that chunk are dropped.  When no chunk comes the
    callback is never called and the promise of [askQuestion] stays
    pending; if the input has ended, readline closes the interface on
    the ['end'] of stdin. *)
Definition question (w : world) (prompt : jsstring) : M jsstring :=
  fun s =>
    let s' := State (fs s) (stdin s) (trace s ++ [Question prompt]) in
    match stdin s with
    | (ans, _) :: rest => (Ok ans, State (fs s') rest (trace s'))
    | [] =>
        if stdinEnds w
        then (Pending, State (fs s') [] (trace s' ++ [InputEnded]))
        else (Pending, s')
    end.

Definition promptLine (query : jsstring) : jsstring :=
  BLUE ++ BAR ++ lit " " ++ query ++ RESET ++ lit " ".

Definition askQuestion (w : world) (query : jsstring) : M jsstring :=
  ans <- question w (promptLine query) ;;
  ret (trim ans).

(** Run an external command and wait for its exit code. *)
Definition runProcess (w : world) (command dir : jsstring)
  : M (option Z) :=
  fun s =>
    let (fs', code) := spawn w command dir (fs s) in
    (Ok code, State fs' (stdin s) (trace s)).

Definition execSync (w : world) (command dir : jsstring) : M unit :=
  emit (ExecSync command dir) ;;
  code <- runProcess w command dir ;;
  if bool_decide (code = Some 0%Z) then ret tt
  else throw (ExecSyncFailed code).

Definition runCommandWithSpinner (w : world)
    (command dir loadingMessage : jsstring) : M unit :=
  emit (SpinnerStart loadingMessage) ;;
  emit (Exec command dir) ;;
  code <- runProcess w command dir ;;
  if bool_decide (code = Some 0%Z)
  then emit (SpinnerSucceed loadingMessage)
  else emit (SpinnerFail loadingMessage) ;; throw (CommandFailed code).

(** [fs.readFile(p, 'utf8')]. *)
Definition readFile (p : jsstring) : M jsstring :=
  emit (ReadFile p) ;;
  fun s =>
    if bool_decide (p ∈ unreadable (fs s)) then (Throw (EACCES p), s)
    else match files (fs s) !! p with
         | Some data => (Ok data, s)
         | None => (Throw (ENOENT p), s)
         end.

(** [fs.writeFile(p, data)]: the file is created or truncated, then
    [data] is written. *)
Definition writeFile (p data : jsstring) : M unit :=
  emit (WriteFile p data) ;;
  fun s =>
    if bool_decide (p ∈ unwritable (fs s)) then (Throw (EACCES p), s)
    else (Ok tt,
          State (Fsys (<[p := data]> (files (fs s))) (unreadable (fs s))
                   (unwritable (fs s)))
                (stdin s) (trace s)).

(** [fs.readFile] succeeds on [p] and yields [data]. *)
Definition readable (f : fsys) (p data : jsstring) : Prop :=
  (p ∉ unreadable f) /\ (files f !! p = Some data).

(** [fs.readFile] fails on [p]: the file is missing or cannot be read. *)
Definition unreadableAt (f : fsys) (p : jsstring) : Prop :=
  (p ∈ unreadable f) \/ (files f !! p = None).

(** A started promise: its effects happen, its outcome is kept for the
    [await].  The two writes of step 5 go to different files, so the order
    in which their effects are applied does not show. *)
Definition start {A} (m : M A) : M (result A) :=
  fun s => let (r, s') := m s in (Ok r, s').

Definition await {A} (r : result A) : M A := fun s => (r, s).

(** [await Promise.all([a, b])]: both operations are started; the first
    rejection, if any, is thrown. *)
Definition promiseAll2 (a b : M unit) : M unit :=
  ra <- start a ;;
  rb <- start b ;;
  await ra ;; await rb.

(** *** Step 4, the text transformation *)

Definition REACT_IMPORT : jsstring :=
  lit "import react from '@vitejs/plugin-react'".
Definition TAILWIND_IMPORT : jsstring :=
  lit "import tailwindcss from '@tailwindcss/vite'".
Definition TAILWIND_CALL : jsstring := lit "tailwindcss()".
Definition PLUGINS_ENTRY : jsstring :=
  lit "plugins: [" ++ NL ++ lit "    tailwindcss(),".

Definition addImport (config : jsstring) : jsstring :=
  if negb (includes config TAILWIND_IMPORT)
  then replace config REACT_IMPORT (REACT_IMPORT ++ NL ++ TAILWIND_IMPORT)
  else config.

Definition addPlugin (config : jsstring) : jsstring :=
  if negb (includes config TAILWIND_CALL)
  then replacePlugins config PLUGINS_ENTRY
  else config.

(** What lines 133-145 do to the text read from [vite.config.js]. *)
Definition patchConfig (config : jsstring) : jsstring :=
  addPlugin (addImport config).

(** The three ways the first guarded insertion can go. *)
Inductive addImport_spec (c : jsstring) : jsstring -> Prop :=
| AddImport_present :
    includes c TAILWIND_IMPORT = true -> addImport_spec c c
| AddImport_no_anchor :
    includes c TAILWIND_IMPORT = false -> ~ occurs REACT_IMPORT c ->
    addImport_spec c c
| AddImport_inserted pre post :
    includes c TAILWIND_IMPORT = false ->
    c = pre ++ REACT_IMPORT ++ post ->
    indexOf c REACT_IMPORT = Some (length pre) ->
    addImport_spec c (pre ++ REACT_IMPORT ++ NL ++ TAILWIND_IMPORT ++ post).

(** The three ways the second guarded insertion can go. *)
Inductive addPlugin_spec (c : jsstring) : jsstring -> Prop :=
| AddPlugin_present :
    includes c TAILWIND_CALL = true -> addPlugin_spec c c
| AddPlugin_no_anchor :
    includes c TAILWIND_CALL = false -> ~ hasPluginsArray c ->
    addPlugin_spec c c
| AddPlugin_inserted u ws v :
    includes c TAILWIND_CALL = false ->
    c = u ++ lit "plugins:" ++ ws ++ [LBRACKET] ++ v ->
    forallb is_space ws = true ->
    searchPlugins c = Some (length u, 9 + length ws) ->
    addPlugin_spec c (u ++ PLUGINS_ENTRY ++ v).

Definition CSS_IMPORT : jsstring :=
  lit "@import " ++ DQUOTE ++ lit "tailwindcss" ++ DQUOTE ++ lit ";" ++ NL.

(** *** [createProject] *)

(** The loop [while (!projectName) { ... }]; each round consumes one
    chunk of input, so [fuel] rounds are enough when [fuel] exceeds the
    number of chunks that will come. *)
Fixpoint promptLoop (w : world) (fuel : nat) : M jsstring :=
  match fuel with
  | O => fun s => (Pending, s)
  | S fuel' =>
      projectName <- askQuestion w (lit "Project name:") ;;
      if truthy projectName then ret projectName
      else logError (lit "Project name cannot be empty") ;;
           promptLoop w fuel'
  end.

Definition promptProjectName (w : world) : M jsstring :=
  fun s => promptLoop w (S (length (stdin s))) s.

Definition projectPathOf (w : world) (projectName : jsstring) : jsstring :=
  if isGlobal w
  then Path.join [cwd w; projectName]
  else Path.join [cwd w; lit ".."; projectName].

Definition scaffoldCommand (projectName : jsstring) : jsstring :=
  lit "npm create vite@latest " ++ projectName ++ lit " -- --template react".

Definition scaffoldDir (w : world) : jsstring :=
  if isGlobal w then cwd w else Path.join [cwd w; lit ".."].

Definition INSTALL : jsstring := lit "npm install".
Definition INSTALL_TAILWIND : jsstring :=
  lit "npm install tailwindcss @tailwindcss/vite".

Definition step1 (w : world) (projectName projectPath : jsstring) : M unit :=
  logStep (lit "1/6") (lit "Creating Vite project...") ;;
  TRY
    (emit (SpinnerStart (lit "Scaffolding project with Vite")) ;;
     execSync w (scaffoldCommand projectName) (scaffoldDir w) ;;
     emit (SpinnerSucceed (lit "Scaffolding project with Vite")) ;;
     logSuccess (lit "Project created at: " ++ projectPath))
  CATCH error =>
    (emit (SpinnerFail (lit "Failed to create Vite project")) ;;
     throw error).

Definition step2 (w : world) (projectPath : jsstring) : M unit :=
  logStep (lit "2/6") (lit "Installing base dependencies...") ;;
  TRY
    (runCommandWithSpinner w INSTALL projectPath
       (lit "Installing React + Vite dependencies") ;;
     logSuccess (lit "Base dependencies installed"))
  CATCH error =>
    (logError (lit "Failed to install dependencies") ;;
     throw error).

Definition step3 (w : world) (projectPath : jsstring) : M unit :=
  logStep (lit "3/6") (lit "Adding Tailwind CSS...") ;;
  TRY
    (runCommandWithSpinner w INSTALL_TAILWIND projectPath
       (lit "Installing Tailwind CSS v4") ;;
     logSuccess (lit "Tailwind CSS installed"))
  CATCH error =>
    (logError (lit "Failed to install Tailwind") ;;
     throw error).

Definition viteConfigWarning : jsstring :=
  YELLOW ++ WARNING ++ lit " Manually add Tailwind to vite.config.js"
  ++ RESET.

Definition viteConfigPath (projectPath : jsstring) : jsstring :=
  Path.join [projectPath; lit "vite.config.js"].

Definition step4 (projectPath : jsstring) : M unit :=
  logStep (lit "4/6") (lit "Configuring Vite...") ;;
  TRY
    (emit (SpinnerStart (lit "Updating vite.config.js")) ;;
     config <- readFile (viteConfigPath projectPath) ;;
     writeFile (viteConfigPath projectPath) (patchConfig config) ;;
     emit (SpinnerSucceed (lit "Updating vite.config.js")) ;;
     logSuccess (lit "Vite configured for Tailwind"))
  CATCH error =>
    (emit (SpinnerFail (lit "Couldn't auto-configure Vite")) ;;
     emit (ConsoleLog viteConfigWarning)).

Definition cssWarning : jsstring :=
  YELLOW ++ WARNING ++ lit " Manually add @import " ++ DQUOTE
  ++ lit "tailwindcss" ++ DQUOTE ++ lit " to CSS files" ++ RESET.

Definition indexCssPath (projectPath : jsstring) : jsstring :=
  Path.join [projectPath; lit "src"; lit "index.css"].
Definition appCssPath (projectPath : jsstring) : jsstring :=
  Path.join [projectPath; lit "src"; lit "App.css"].

Definition step5 (projectPath : jsstring) : M unit :=
  logStep (lit "5/6") (lit "Setting up CSS...") ;;
  TRY
    (emit (SpinnerStart (lit "Configuring CSS files")) ;;
     promiseAll2
       (writeFile (indexCssPath projectPath) CSS_IMPORT)
       (writeFile (appCssPath projectPath) CSS_IMPORT) ;;
     emit (SpinnerSucceed (lit "Configuring CSS files")) ;;
     logSuccess (lit "CSS files configured"))
  CATCH error =>
    (emit (SpinnerFail (lit "Couldn't configure CSS files")) ;;
     emit (ConsoleLog cssWarning)).

Definition step6 (projectName : jsstring) : M unit :=
  logStep (lit "6/6") (lit "Finalizing setup...") ;;
  emit (SetTimeout 500) ;;
  emit (ConsoleLog
    (NL ++ GREEN ++ BRIGHT ++ DIAMOND ++ lit "  Setup complete!" ++ RESET)) ;;
  emit (ConsoleLog (BLUE ++ BAR ++ RESET ++ lit " Next steps:")) ;;
  emit (ConsoleLog (BLUE ++ BAR ++ RESET ++ lit " cd " ++ projectName)) ;;
  emit (ConsoleLog (BLUE ++ BAR ++ RESET ++ lit " npm run dev" ++ NL)).

Definition banner : jsstring :=
  NL ++ CYAN ++ BRIGHT ++ DIAMOND
  ++ lit "  Vite + React + Tailwind CSS v4 Setup" ++ RESET ++ NL.

(** The steps that follow the prompt; [projectPath] is bound once here
    and handed to every step. *)
Definition pipeline (w : world) (projectName : jsstring) : M jsstring :=
  let projectPath := projectPathOf w projectName in
  step1 w projectName projectPath ;;
  step2 w projectPath ;;
  step3 w projectPath ;;
  step4 projectPath ;;
  step5 projectPath ;;
  step6 projectName ;;
  ret projectPath.

Definition createProject (w : world) : M jsstring :=
  emit (ConsoleLog banner) ;;
  projectName <- promptProjectName w ;;
  pipeline w projectName.

(** [process.exit(code)]. *)
Definition processExit {A} (code : Z) : M A := fun s => (Exit code, s).

(** The top level of the module when it is the main script
    ([require.main === module]). *)
Definition cli (w : world) : M unit :=
  TRY
    (createProject w ;;
     emit Close ;;
     processExit 0)
  CATCH error =>
    (emit (SpinnerFail (lit "Setup failed")) ;;
     emit (ConsoleError error) ;;
     emit Close ;;
     processExit 1).

(** Loading the module: the terminal interface is created, then either
    the command-line run starts or [createProject] is exported. *)
Definition loadModule (w : world) : M unit :=
  emit CreateInterface ;;
  if negb (isGlobal w) then cli w else ret tt.

(** A client that loads the module and calls the exported function. *)
Definition requireAndCreate (w : world) : M jsstring :=
  loadModule w ;;
  createProject w.

Definition initial (f : fsys) (input : list delivery) : state :=
  State f input [].

(** How the process of a command-line run ends.  [process.exit(code)]
    ends it with [code].  When the run stays pending, nothing but the
    open standard input keeps the process alive: it waits as long as the
    input stays open, and once the input has ended Node finds nothing
    left to do and the process ends with status 0.  [None]: the process
    does not end. *)
Definition exitStatus (w : world) (r : result unit) : option Z :=
  match r with
  | Exit code => Some code
  | Throw _ => Some 1%Z
  | Ok _ | Pending => if stdinEnds w then Some 0%Z else None
  end.

(** Observations on a trace. *)
Definition isClose (e : event) : bool :=
  match e with Close => true | _ => false end.

Definition isFileAccess (e : event) : bool :=
  match e with ReadFile _ | WriteFile _ _ => true | _ => false end.

Definition isProcess (e : event) : bool :=
  match e with ExecSync _ _ | Exec _ _ => true | _ => false end.

Definition countClose (t : list event) : nat :=
  length (List.filter isClose t).

Definition countOpen (t : list event) : nat :=
  length (List.filter
            (fun e => match e with CreateInterface => true | _ => false end)
            t).

(** What the prompt loop prints when [n] answers were empty after
    trimming: a question and a complaint for each, then the question that
    the next answer settles. *)
Fixpoint promptEvents (n : nat) : list event :=
  match n with
  | O => [Question (promptLine (lit "Project name:"))]
  | S n' =>
      Question (promptLine (lit "Project name:"))
      :: ConsoleLog (errorLine (lit "Project name cannot be empty"))
      :: promptEvents n'
  end.

(** The events of each step when it goes well, and of the ways it can
    go wrong. *)
Definition scaffolded (w : world) (projectName : jsstring) : list event :=
  [ConsoleLog (stepLine (lit "1/6") (lit "Creating Vite project..."));
   SpinnerStart (lit "Scaffolding project with Vite");
   ExecSync (scaffoldCommand projectName) (scaffoldDir w);
   SpinnerSucceed (lit "Scaffolding project with Vite");
   ConsoleLog
     (successLine
        (lit "Project created at: " ++ projectPathOf w projectName))].

Definition installStarted (projectPath : jsstring) : list event :=
  [ConsoleLog (stepLine (lit "2/6") (lit "Installing base dependencies..."));
   SpinnerStart (lit "Installing React + Vite dependencies");
   Exec INSTALL projectPath].

Definition installed (projectPath : jsstring) : list event :=
  installStarted projectPath
  ++ [SpinnerSucceed (lit "Installing React + Vite dependencies");
      ConsoleLog (successLine (lit "Base dependencies installed"))].

Definition installFailed (projectPath : jsstring) : list event :=
  installStarted projectPath
  ++ [SpinnerFail (lit "Installing React + Vite dependencies");
      ConsoleLog (errorLine (lit "Failed to install dependencies"))].

Definition tailwindInstalled (projectPath : jsstring) : list event :=
  [ConsoleLog (stepLine (lit "3/6") (lit "Adding Tailwind CSS..."));
   SpinnerStart (lit "Installing Tailwind CSS v4");
   Exec INSTALL_TAILWIND projectPath;
   SpinnerSucceed (lit "Installing Tailwind CSS v4");
   ConsoleLog (successLine (lit "Tailwind CSS installed"))].

Definition configStarted (projectPath : jsstring) : list event :=
  [ConsoleLog (stepLine (lit "4/6") (lit "Configuring Vite..."));
   SpinnerStart (lit "Updating vite.config.js");
   ReadFile (viteConfigPath projectPath)].

Definition configWarned : list event :=
  [SpinnerFail (lit "Couldn't auto-configure Vite");
   ConsoleLog viteConfigWarning].

Definition configWritten (projectPath data : jsstring) : list event :=
  [WriteFile (viteConfigPath projectPath) data;
   SpinnerSucceed (lit "Updating vite.config.js");
   ConsoleLog (successLine (lit "Vite configured for Tailwind"))].

Definition cssStarted (projectPath : jsstring) : list event :=
  [ConsoleLog (stepLine (lit "5/6") (lit "Setting up CSS..."));
   SpinnerStart (lit "Configuring CSS files");
   WriteFile (indexCssPath projectPath) CSS_IMPORT;
   WriteFile (appCssPath projectPath) CSS_IMPORT].

Definition cssDone : list event :=
  [SpinnerSucceed (lit "Configuring CSS files");
   ConsoleLog (successLine (lit "CSS files configured"))].

Definition cssWarned : list event :=
  [SpinnerFail (lit "Couldn't configure CSS files");
   ConsoleLog cssWarning].

Definition finished (projectName : jsstring) : list event :=
  [ConsoleLog (stepLine (lit "6/6") (lit "Finalizing setup..."));
   SetTimeout 500;
   ConsoleLog
     (NL ++ GREEN ++ BRIGHT ++ DIAMOND ++ lit "  Setup complete!" ++ RESET);
   ConsoleLog (BLUE ++ BAR ++ RESET ++ lit " Next steps:");
   ConsoleLog (BLUE ++ BAR ++ RESET ++ lit " cd " ++ projectName);
   ConsoleLog (BLUE ++ BAR ++ RESET ++ lit " npm run dev" ++ NL)].

Definition setupFailed (e : error) : list event :=
  [SpinnerFail (lit "Setup failed"); ConsoleError e; Close].

(** The file system after a successful [fs.writeFile(p, data)]. *)
Definition written (f : fsys) (p data : jsstring) : fsys :=
  Fsys (<[p := data]> (files f)) (unreadable f) (unwritable f).

(** An event that names a directory or a file names one in the parent
    of the working directory: the commands run there or in a project
    directory next to the working directory, and the files lie in such
    a project directory. *)
Definition besideCwd (w : world) (e : event) : Prop :=
  match e with
  | ExecSync _ dir => dir = Path.join [cwd w; lit ".."]
  | Exec _ dir => exists name, dir = Path.join [cwd w; lit ".."; name]
  | ReadFile p =>
      exists name, p = viteConfigPath (Path.join [cwd w; lit ".."; name])
  | WriteFile p _ =>
      exists name,
        p = viteConfigPath (Path.join [cwd w; lit ".."; name])
        \/ p = indexCssPath (Path.join [cwd w; lit ".."; name])
        \/ p = appCssPath (Path.join [cwd w; lit ".."; name])
  | _ => True
  end.

(** An event that names a directory or a file names the one that the
    run derives from [projectPath]. *)
Definition usesPath (projectPath : jsstring) (e : event) : Prop :=
  match e with
  | Exec _ dir => dir = projectPath
  | ReadFile p => p = viteConfigPath projectPath
  | WriteFile p _ =>
      p = viteConfigPath projectPath \/ p = indexCssPath projectPath
      \/ p = appCssPath projectPath
  | _ => True
  end.

Definition scaffoldFailed (w : world) (projectName : jsstring)
  : list event :=
  [ConsoleLog (stepLine (lit "1/6") (lit "Creating Vite project..."));
   SpinnerStart (lit "Scaffolding project with Vite");
   ExecSync (scaffoldCommand projectName) (scaffoldDir w);
   SpinnerFail (lit "Failed to create Vite project")].

Definition tailwindFailed (projectPath : jsstring) : list event :=
  [ConsoleLog (stepLine (lit "3/6") (lit "Adding Tailwind CSS..."));
   SpinnerStart (lit "Installing Tailwind CSS v4");
   Exec INSTALL_TAILWIND projectPath;
   SpinnerFail (lit "Installing Tailwind CSS v4");
   ConsoleLog (errorLine (lit "Failed to install Tailwind"))].

(** The errors of an external command that did not exit with 0. *)
Definition isProcessError (e : error) : Prop :=
  match e with
  | ExecSyncFailed code | CommandFailed code => code <> Some 0%Z
  | ENOENT _ | EACCES _ => False
  end.

(** [m] never calls [process.exit], and every event it adds to the trace
    satisfies [P]. *)
Definition emitsOnly {A} (P : event -> Prop) (m : M A) : Prop :=
  forall s,
    (forall code, (m s).1 <> Exit code)
    /\ exists t, trace (m s).2 = trace s ++ t /\ Forall P t.

End TailEase.

Import TailEase.

(** ** Concrete inputs *)

Module Inputs.

(** The [vite.config.js] that the React template generates. *)
Definition viteConfig : jsstring :=
  lit "import { defineConfig } from 'vite'" ++ NL
  ++ lit "import react from '@vitejs/plugin-react'" ++ NL ++ NL
  ++ lit "// https://vite.dev/config/" ++ NL
  ++ lit "export default defineConfig({" ++ NL
  ++ lit "  plugins: [react()]," ++ NL
  ++ lit "})" ++ NL.

(** The same file under a comment that mentions [plugins:], a tab and a
    bracket. *)
Definition commentedConfig : jsstring :=
  lit "// plugins:" ++ [9%N] ++ lit "[]" ++ NL ++ viteConfig.

(** A file that already imports the plugin but does not call it. *)
Definition importedConfig : jsstring :=
  lit "import react from '@vitejs/plugin-react'" ++ NL
  ++ lit "import tailwindcss from '@tailwindcss/vite'" ++ NL
  ++ lit "export default { plugins: [react()] }" ++ NL.

(** A file that calls the plugin but does not import it. *)
Definition calledConfig : jsstring :=
  lit "import react from '@vitejs/plugin-react'" ++ NL
  ++ lit "export default { plugins: [react(), tailwindcss()] }" ++ NL.

(** A file with neither anchor. *)
Definition plainConfig : jsstring :=
  lit "export default {}" ++ NL.

(** A file with both markers. *)
Definition patchedConfig : jsstring :=
  lit "import react from '@vitejs/plugin-react'" ++ NL
  ++ lit "import tailwindcss from '@tailwindcss/vite'" ++ NL
  ++ lit "export default { plugins: [react(), tailwindcss()] }" ++ NL.

(** External commands that all succeed; the generator writes the
    template's [vite.config.js] for a project called [demo]. *)
Definition spawnOk (cmd dir : jsstring) (f : fsys) : fsys * option Z :=
  if startsWith (lit "npm create") cmd
  then (Fsys (<[Path.join [dir; lit "demo"; lit "vite.config.js"]
                 := viteConfig]> (files f))
          (unreadable f) (unwritable f), Some 0%Z)
  else (f, Some 0%Z).

(** The same, but [npm install] exits with code 1. *)
Definition spawnInstallFails (cmd dir : jsstring) (f : fsys)
  : fsys * option Z :=
  if bool_decide (cmd = INSTALL) then (f, Some 1%Z) else spawnOk cmd dir f.

(** The generator succeeds but leaves no [vite.config.js]. *)
Definition spawnNoConfig (cmd dir : jsstring) (f : fsys)
  : fsys * option Z := (f, Some 0%Z).

Definition emptyFs : fsys := Fsys ∅ ∅ ∅.

(** The script run as the main module from [/home/u/work]. *)
Definition cliWorld : world :=
  World (lit "/home/u/work") false false spawnOk.

(** The script loaded by another module. *)
Definition moduleWorld : world :=
  World (lit "/home/u/work") true false spawnOk.

Definition failingWorld : world :=
  World (lit "/home/u/work") false false spawnInstallFails.

Definition noConfigWorld : world :=
  World (lit "/home/u/work") false false spawnNoConfig.

(** The same command-line run on a standard input that ends after the
    last line (a pipe or a file). *)
Definition pipedWorld : world :=
  World (lit "/home/u/work") false true spawnOk.

(** The user presses return, types blanks, then [ demo ], each line after
    the prompt for it. *)
Definition demoInput : list delivery :=
  lineByLine [[]; lit "   "; lit " demo "].

(** The same three lines arriving in one chunk, as pasted or piped. *)
Definition demoChunk : list delivery := [([], [lit "   "; lit " demo "])].

(** A blank line and [demo] in one chunk, [other] after the next
    prompt. *)
Definition lateInput : list delivery :=
  [(lit " ", [lit "demo"]); (lit "other", [])].

(** A project directory whose CSS files have other content. *)
Definition oldCssFs : fsys :=
  Fsys {[ lit "/p/src/index.css" := lit "body { margin: 0 }";
          lit "/p/src/App.css" := lit ".App { color: red }" ]} ∅ ∅.

(** A project directory whose [vite.config.js] has neither anchor. *)
Definition plainFs : fsys :=
  Fsys {[ lit "/p/vite.config.js" := plainConfig ]} ∅ ∅.

(** The same project directory with a read-only [vite.config.js]. *)
Definition readOnlyConfigFs : fsys :=
  Fsys {[ lit "/p/vite.config.js" := plainConfig ]}
    ∅ {[ lit "/p/vite.config.js" ]}.

(** The generator exits with code 1. *)
Definition spawnScaffoldFails (cmd dir : jsstring) (f : fsys)
  : fsys * option Z := (f, Some 1%Z).

(** The installation of Tailwind is killed by a signal. *)
Definition spawnTailwindKilled (cmd dir : jsstring) (f : fsys)
  : fsys * option Z :=
  if bool_decide (cmd = INSTALL_TAILWIND) then (f, None)
  else spawnOk cmd dir f.

Definition scaffoldFailWorld : world :=
  World (lit "/home/u/work") false false spawnScaffoldFails.

Definition tailwindKilledWorld : world :=
  World (lit "/home/u/work") false false spawnTailwindKilled.

(** A config file that imports the react plugin with double quotes. *)
Definition doubleQuotedConfig : jsstring :=
  lit "import react from " ++ DQUOTE ++ lit "@vitejs/plugin-react" ++ DQUOTE
  ++ NL ++ lit "export default { plugins: [react()] }" ++ NL.

(** A config file with two [plugins] arrays. *)
Definition twoArraysConfig : jsstring :=
  lit "const a = { plugins: [x()] }" ++ NL
  ++ lit "const b = { plugins:" ++ NL ++ lit "  [y()] }" ++ NL.

(** A project directory in which [src/index.css] cannot be written. *)
Definition lockedIndexFs : fsys :=
  Fsys {[ lit "/p/src/index.css" := lit "body { margin: 0 }";
          lit "/p/src/App.css" := lit ".App { color: red }" ]}
    ∅ {[ lit "/p/src/index.css" ]}.

(** A file system that refuses to write [vite.config.js] and
    [src/index.css] of the project [/home/u/demo]. *)
Definition lockedDemoFs : fsys :=
  Fsys ∅ ∅
    {[ lit "/home/u/demo/vite.config.js"; lit "/home/u/demo/src/index.css" ]}.

(** A generated project: the template's [vite.config.js] next to a
    [package.json]. *)
Definition projectFs : fsys :=
  Fsys {[ lit "/p/vite.config.js" := viteConfig;
          lit "/p/package.json" := lit "{}" ]} ∅ ∅.

End Inputs.

Import Inputs.

(** ** Facts about the string primitives *)

Module JsStringFacts.

Lemma startsWith_app (p t : jsstring) : startsWith p (p ++ t) = true.
Proof.
  induction p as [|a p IH]; simpl; [done|].
  by rewrite N.eqb_refl, IH.
Qed.

Lemma startsWith_inv (p s : jsstring) :
  startsWith p s = true -> s = p ++ drop (length p) s.
Proof.
  revert s; induction p as [|a p IH]; intros [|b s]; simpl; try done.
  intros [Hab Hps]%andb_true_iff.
  apply N.eqb_eq in Hab as ->. f_equal. by apply IH.
Qed.

Lemma occurs_refl (p : jsstring) : occurs p p.
Proof. exists [], []. by rewrite app_nil_r. Qed.

Lemma occurs_app_l (p x y : jsstring) : occurs p x -> occurs p (x ++ y).
Proof.
  intros (a & b & ->). exists a, (b ++ y). by rewrite <- !app_assoc.
Qed.

Lemma occurs_app_r (p x y : jsstring) : occurs p y -> occurs p (x ++ y).
Proof.
  intros (a & b & ->). exists (x ++ a), b. by rewrite <- !app_assoc.
Qed.

(** [indexOf] finds an occurrence, and it is the first one. *)
Lemma indexOf_Some (s p : jsstring) (i : nat) :
  indexOf s p = Some i ->
  s = take i s ++ p ++ drop (i + length p) s.
Proof.
  revert i; induction s as [|c s IH]; intros i; simpl.
  - destruct (startsWith p []) eqn:E; [|done].
    intros [= <-]. by apply startsWith_inv in E.
  - destruct (startsWith p (c :: s)) eqn:E.
    + intros [= <-]. by apply startsWith_inv in E.
    + destruct (indexOf s p) as [j|] eqn:Ej; simpl; [|done].
      intros [= <-]. simpl. f_equal. by apply IH.
Qed.

Lemma indexOf_first (s p : jsstring) (i : nat) :
  indexOf s p = Some i ->
  forall j, j < i -> startsWith p (drop j s) = false.
Proof.
  revert i; induction s as [|c s IH]; intros i; simpl.
  - destruct (startsWith p []); [|done]. intros [= <-] j Hj. lia.
  - destruct (startsWith p (c :: s)) eqn:E.
    + intros [= <-] j Hj. lia.
    + destruct (indexOf s p) as [k|] eqn:Ek; simpl; [|done].
      intros [= <-] [|j] Hj; [done|]. simpl. apply (IH k); [done|lia].
Qed.

Lemma indexOf_None (s p : jsstring) : indexOf s p = None -> ~ occurs p s.
Proof.
  induction s as [|c s IH]; simpl.
  - destruct (startsWith p []) eqn:E; [done|].
    intros _ (a & b & Hab). symmetry in Hab.
    apply app_eq_nil in Hab as [-> Hab]. apply app_eq_nil in Hab as [-> _].
    done.
  - destruct (startsWith p (c :: s)) eqn:E; [done|].
    destruct (indexOf s p) eqn:Ei; simpl; [done|].
    intros _ ([|x a] & b & Hab).
    + simpl in Hab. rewrite Hab, startsWith_app in E. done.
    + injection Hab as -> ->. apply IH; [done|]. by exists a, b.
Qed.

Lemma includes_true (s p : jsstring) : includes s p = true <-> occurs p s.
Proof.
  unfold includes. destruct (indexOf s p) as [i|] eqn:E.
  - split; [|done]. intros _. apply indexOf_Some in E.
    by exists (take i s), (drop (i + length p) s).
  - split; [done|]. intros H. by apply indexOf_None in E.
Qed.

Lemma includes_false (s p : jsstring) : includes s p = false <-> ~ occurs p s.
Proof.
  rewrite <- includes_true. destruct (includes s p); split; done.
Qed.

(** An occurrence of [p] in a text cut at a character that [p] does not
    contain lies on one side of the cut. *)
Lemma occurs_cut (p x y : jsstring) (c : N) :
  c ∉ p -> occurs p (x ++ c :: y) -> occurs p x \/ occurs p y.
Proof.
  intros Hc (a & b & Heq). symmetry in Heq.
  apply app_eq_app in Heq as [l [[-> Heq]|[-> Heq]]].
  - destruct l as [|d l]; simpl in Heq.
    + destruct p as [|d p]; simpl in Heq.
      * left. exists x, []. by rewrite app_nil_r.
      * injection Heq as <- _. exfalso. apply Hc. by left.
    + injection Heq as _ ->. right. by exists l, b.
  - apply app_eq_app in Heq as [m [[-> Heq]|[-> Heq]]].
    + destruct m as [|d m]; simpl in Heq.
      * left. exists a, []. by rewrite !app_nil_r.
      * injection Heq as -> _. exfalso. apply Hc.
        apply elem_of_app. right. by left.
    + left. exists a, m. by rewrite <- ?app_assoc.
Qed.

Lemma occurs_spaces (p ws : jsstring) :
  occurs p ws -> forallb is_space ws = true -> forallb is_space p = true.
Proof.
  intros (a & b & ->). rewrite !forallb_app.
  intros [_ [H _]%andb_true_iff]%andb_true_iff. done.
Qed.

(** *** The regular expression *)

Lemma spanSpaces_spec (ws b : jsstring) (c : N) :
  forallb is_space ws = true -> is_space c = false ->
  spanSpaces (ws ++ c :: b) = length ws.
Proof.
  intros Hws Hc. induction ws as [|d ws IH]; simpl in *.
  - by rewrite Hc.
  - apply andb_true_iff in Hws as [-> Hws]. by rewrite IH.
Qed.

Lemma spanSpaces_inv (s : jsstring) :
  forallb is_space (take (spanSpaces s) s) = true.
Proof.
  induction s as [|c s IH]; simpl; [done|].
  destruct (is_space c) eqn:E; simpl; [|done]. by rewrite E, IH.
Qed.

Lemma matchPluginsHere_complete (ws b : jsstring) :
  forallb is_space ws = true ->
  matchPluginsHere (lit "plugins:" ++ ws ++ [LBRACKET] ++ b)
  = Some (9 + length ws).
Proof.
  intros Hws. unfold matchPluginsHere. rewrite startsWith_app.
  change (drop 8 (lit "plugins:" ++ ws ++ [LBRACKET] ++ b))
    with (ws ++ LBRACKET :: b).
  rewrite spanSpaces_spec by done.
  rewrite drop_app_length. simpl. f_equal. lia.
Qed.

Lemma matchPluginsHere_sound (s : jsstring) (n : nat) :
  matchPluginsHere s = Some n ->
  exists ws, s = lit "plugins:" ++ ws ++ [LBRACKET] ++ drop n s
             /\ forallb is_space ws = true /\ n = 9 + length ws.
Proof.
  unfold matchPluginsHere.
  destruct (startsWith (lit "plugins:") s) eqn:E; [|done].
  apply startsWith_inv in E.
  change (length (lit "plugins:")) with 8 in E.
  set (rest := drop 8 s) in *.
  destruct (drop (spanSpaces rest) rest) as [|c t] eqn:Ed; [done|].
  destruct (c =? LBRACKET)%N eqn:Ec; [|done].
  apply N.eqb_eq in Ec as ->.
  assert (Hd : forall m, m = 8 + spanSpaces rest + 1 -> drop m s = t).
  { intros m ->. replace (8 + spanSpaces rest + 1)
      with (8 + (spanSpaces rest + 1)) by lia.
    rewrite <- drop_drop. fold rest. rewrite <- drop_drop, Ed.
    simpl. apply drop_0. }
  intros [= Hn].
  exists (take (spanSpaces rest) rest).
  assert (Hlen : length (take (spanSpaces rest) rest) = spanSpaces rest).
  { apply length_take_le.
    destruct (decide (spanSpaces rest <= length rest)) as [|Hgt]; [done|].
    rewrite drop_ge in Ed by lia. done. }
  split; [|split].
  - rewrite E at 1. f_equal. rewrite (Hd n) by lia.
    rewrite <- (take_drop (spanSpaces rest) rest) at 1. by rewrite Ed.
  - apply spanSpaces_inv.
  - rewrite Hlen. lia.
Qed.

Lemma searchPlugins_Some (s : jsstring) (i n : nat) :
  searchPlugins s = Some (i, n) ->
  exists ws, s = take i s ++ lit "plugins:" ++ ws ++ [LBRACKET]
                 ++ drop (i + n) s
             /\ forallb is_space ws = true /\ n = 9 + length ws.
Proof.
  revert i; induction s as [|c s IH]; intros i; simpl.
  - done.
  - destruct (matchPluginsHere (c :: s)) as [m|] eqn:E.
    + intros [= <- <-]. by apply matchPluginsHere_sound in E.
    + destruct (searchPlugins s) as [[j m]|] eqn:Ej; simpl; [|done].
      intros [= <- <-]. destruct (IH j eq_refl) as (ws & Hs & Hws & Hn).
      exists ws. split; [|done]. simpl. f_equal. done.
Qed.

Lemma searchPlugins_None (s : jsstring) :
  searchPlugins s = None -> ~ hasPluginsArray s.
Proof.
  induction s as [|c s IH]; simpl.
  - intros _ (a & ws & b & Heq & _). symmetry in Heq.
    apply app_eq_nil in Heq as [_ Heq]. done.
  - destruct (matchPluginsHere (c :: s)) eqn:E; [done|].
    destruct (searchPlugins s) as [[j m]|] eqn:Ej; simpl; [done|].
    intros _ ([|x a] & ws & b & Heq & Hws).
    + simpl in Heq. rewrite Heq in E.
      change (?x :: ?y) with (lit "plugins:" ++ ws ++ [LBRACKET] ++ b) in E.
      by rewrite matchPluginsHere_complete in E.
    + injection Heq as -> ->. apply IH; [done|]. by exists a, ws, b.
Qed.

(** *** Subsequences *)

Lemma subseqb_sublist (s t : jsstring) :
  subseqb s t = true <-> s `sublist_of` t.
Proof.
  revert s; induction t as [|b t IH]; intros [|a s]; simpl.
  - split; [constructor|done].
  - split; [done|]. intros H. by apply sublist_nil_r in H.
  - split; [intros _; apply sublist_nil_l|done].
  - destruct (a =? b)%N eqn:E.
    + apply N.eqb_eq in E as ->. rewrite IH. split.
      * by constructor.
      * intros H. apply sublist_cons_r in H as [H|(k & [= ->] & H)]; [|done].
        etrans; [|exact H]. by apply sublist_cons.
    + apply N.eqb_neq in E. rewrite IH. split.
      * by apply sublist_cons.
      * intros H. apply sublist_cons_r in H as [H|(k & [= -> ->] & H)]; done.
Qed.

End JsStringFacts.

Import JsStringFacts.

(** ** Facts about the text transformation of step 4 *)

Module PatchFacts.

(** Closed facts about the fixed texts are settled by evaluation. *)
Ltac by_eval :=
  first
    [ vm_compute; reflexivity
    | match goal with
      | |- ?P => apply (bool_decide_eq_true_1 P); vm_compute; reflexivity
      end ].

(** Cut the text of [H : occurs p (x ++ c :: y)] at [c], which [p] does
    not contain by [Hc]: two goals, the occurrence left or right of it. *)
Ltac cut_at H Hc :=
  cbn [app] in H; apply (occurs_cut _ _ _ _ Hc) in H; destruct H as [H|H].

Lemma indexOf_le (s p : jsstring) (i : nat) :
  indexOf s p = Some i -> i <= length s.
Proof.
  revert i; induction s as [|c s IH]; intros i; simpl.
  - destruct (startsWith p []); [|done]. intros [= <-]. lia.
  - destruct (startsWith p (c :: s)); [intros [= <-]; lia|].
    destruct (indexOf s p) as [j|]; simpl; [|done].
    intros [= <-]. specialize (IH j eq_refl). lia.
Qed.

Lemma searchPlugins_le (s : jsstring) (i n : nat) :
  searchPlugins s = Some (i, n) -> i <= length s.
Proof.
  revert i; induction s as [|c s IH]; intros i; simpl.
  - done.
  - destruct (matchPluginsHere (c :: s)); [intros [= <- <-]; lia|].
    destruct (searchPlugins s) as [[j m]|]; simpl; [|done].
    intros [= <- <-]. specialize (IH j eq_refl). lia.
Qed.

(** Neither replacement template holds a [$], so both are inserted as
    they are written. *)
Lemma getSubstitution_import (m b a : jsstring) :
  getSubstitution m b a (REACT_IMPORT ++ NL ++ TAILWIND_IMPORT)
  = REACT_IMPORT ++ NL ++ TAILWIND_IMPORT.
Proof. reflexivity. Qed.

Lemma getSubstitution_entry (m b a : jsstring) :
  getSubstitution m b a PLUGINS_ENTRY = PLUGINS_ENTRY.
Proof. reflexivity. Qed.

Lemma addImport_cases (c : jsstring) : addImport_spec c (addImport c).
Proof.
  unfold addImport. destruct (includes c TAILWIND_IMPORT) eqn:Ht; simpl.
  { by apply AddImport_present. }
  unfold replace. destruct (indexOf c REACT_IMPORT) as [i|] eqn:Ei.
  2:{ apply AddImport_no_anchor; [done|]. by apply indexOf_None. }
  unfold splice. rewrite getSubstitution_import.
  pose proof (indexOf_Some _ _ _ Ei) as Hc.
  pose proof (indexOf_le _ _ _ Ei) as Hle.
  rewrite <- !app_assoc.
  apply AddImport_inserted; [done|done|].
  by rewrite length_take_le.
Qed.

Lemma addPlugin_cases (c : jsstring) : addPlugin_spec c (addPlugin c).
Proof.
  unfold addPlugin. destruct (includes c TAILWIND_CALL) eqn:Ht; simpl.
  { by apply AddPlugin_present. }
  unfold replacePlugins. destruct (searchPlugins c) as [[i n]|] eqn:Ei.
  2:{ apply AddPlugin_no_anchor; [done|]. by apply searchPlugins_None. }
  unfold splice. rewrite getSubstitution_entry.
  destruct (searchPlugins_Some _ _ _ Ei) as (ws & Hc & Hws & ->).
  pose proof (searchPlugins_le _ _ _ Ei) as Hle.
  apply (AddPlugin_inserted c (take i c) ws); [done|done|done|].
  by rewrite length_take_le.
Qed.

(** *** What each insertion keeps and what it cannot create *)

Lemma occurs_addImport_fwd (p c : jsstring) :
  39%N ∉ p -> occurs p c -> occurs p (addImport c).
Proof.
  intros Hq Hp. destruct (addImport_cases c) as [| |pre post _ Hc _]; try done.
  rewrite Hc in Hp.
  change REACT_IMPORT
    with (lit "import react from '@vitejs/plugin-react" ++ [39%N]) in *.
  rewrite <- !app_assoc in *. rewrite app_assoc in Hp. rewrite app_assoc.
  cut_at Hp Hq.
  - by apply occurs_app_l.
  - apply occurs_app_r. apply (occurs_app_r _ (39%N :: NL ++ TAILWIND_IMPORT)).
    done.
Qed.

Lemma occurs_addImport_bwd (p c : jsstring) :
  10%N ∉ p -> 39%N ∉ p ->
  includes (lit "import tailwindcss from '@tailwindcss/vite") p = false ->
  occurs p (addImport c) -> occurs p c.
Proof.
  intros Hn Hq Hin Hp.
  destruct (addImport_cases c) as [| |pre post _ Hc _]; try done.
  rewrite Hc.
  change TAILWIND_IMPORT
    with (lit "import tailwindcss from '@tailwindcss/vite" ++ [39%N]) in Hp.
  rewrite <- !app_assoc in Hp. rewrite (app_assoc pre) in Hp.
  cut_at Hp Hn.
  - rewrite app_assoc. by apply occurs_app_l.
  - cut_at Hp Hq.
    + by apply includes_false in Hin.
    + by do 2 apply occurs_app_r.
Qed.

Lemma occurs_addPlugin_fwd (p c : jsstring) :
  58%N ∉ p -> LBRACKET ∉ p -> forallb is_space p = false ->
  occurs p c -> occurs p (addPlugin c).
Proof.
  intros Hcolon Hbr Hsp Hp.
  destruct (addPlugin_cases c) as [| |u ws v _ Hc Hws _]; try done.
  rewrite Hc in Hp.
  change (lit "plugins:") with (lit "plugins" ++ [58%N]) in Hp.
  change PLUGINS_ENTRY
    with (lit "plugins" ++ 58%N :: lit " [" ++ NL ++ lit "    tailwindcss(),").
  rewrite <- !app_assoc in *. rewrite app_assoc in Hp. rewrite app_assoc.
  cut_at Hp Hcolon.
  - by apply occurs_app_l.
  - cut_at Hp Hbr.
    + apply occurs_spaces in Hp; [|done]. congruence.
    + apply occurs_app_r.
      apply (occurs_app_r _ (58%N :: lit " [" ++ NL ++ lit "    tailwindcss(),")).
      done.
Qed.

Lemma occurs_addPlugin_bwd (p c : jsstring) :
  58%N ∉ p -> LBRACKET ∉ p -> 44%N ∉ p ->
  includes (lit " ") p = false ->
  includes (NL ++ lit "    tailwindcss()") p = false ->
  occurs p (addPlugin c) -> occurs p c.
Proof.
  intros Hcolon Hbr Hcomma Hsp Hcall Hp.
  destruct (addPlugin_cases c) as [| |u ws v _ Hc Hws _]; try done.
  rewrite Hc.
  change PLUGINS_ENTRY
    with (lit "plugins" ++ [58%N] ++ lit " " ++ [LBRACKET]
            ++ (NL ++ lit "    tailwindcss()") ++ [44%N]) in Hp.
  change (lit "plugins:") with (lit "plugins" ++ [58%N]).
  rewrite <- !app_assoc in *. rewrite app_assoc in Hp. rewrite app_assoc.
  cut_at Hp Hcolon.
  { by apply occurs_app_l. }
  cut_at Hp Hbr.
  { by apply includes_false in Hsp. }
  apply (occurs_cut p (NL ++ lit "    tailwindcss()") v _ Hcomma) in Hp.
  destruct Hp as [Hp|Hp].
  { by apply includes_false in Hcall. }
  by do 4 apply occurs_app_r.
Qed.

Lemma addPlugin_includes_call (c : jsstring) :
  addPlugin c <> c -> includes (addPlugin c) TAILWIND_CALL = true.
Proof.
  intros Hne. destruct (addPlugin_cases c) as [| |u ws v _ _ _ _]; try done.
  apply includes_true. apply occurs_app_r, occurs_app_l.
  exists (lit "plugins: [" ++ NL ++ lit "    "), (lit ","). reflexivity.
Qed.

Lemma addPlugin_idem (c : jsstring) : addPlugin (addPlugin c) = addPlugin c.
Proof.
  destruct (decide (addPlugin c = c)) as [He|Hne]; [by rewrite !He|].
  apply addPlugin_includes_call in Hne.
  unfold addPlugin at 1. by rewrite Hne.
Qed.

Lemma addPlugin_keeps_import (c : jsstring) :
  includes c TAILWIND_IMPORT = true ->
  includes (addPlugin c) TAILWIND_IMPORT = true.
Proof.
  rewrite !includes_true. apply occurs_addPlugin_fwd; by_eval.
Qed.

End PatchFacts.

Import PatchFacts.

(** ** Step 4: the patch of [vite.config.js] *)

Lemma addImport_creates_marker (c : jsstring) :
  occurs REACT_IMPORT (addImport c) ->
  includes (addImport c) TAILWIND_IMPORT = true.
Proof.
  intros H. destruct (addImport_cases c) as [|Ht Hr|pre post _ _ _].
  - done.
  - done.
  - apply includes_true. do 3 apply occurs_app_r. apply occurs_app_l.
    apply occurs_refl.
Qed.

Lemma addImport_after_addPlugin (c : jsstring) :
  addImport (addPlugin (addImport c)) = addPlugin (addImport c).
Proof.
  unfold addImport at 1.
  destruct (includes (addPlugin (addImport c)) TAILWIND_IMPORT) eqn:E;
    simpl; [done|].
  unfold replace.
  destruct (indexOf (addPlugin (addImport c)) REACT_IMPORT) as [i|] eqn:Ei;
    [|done].
  exfalso.
  assert (Hr : occurs REACT_IMPORT (addPlugin (addImport c))).
  { apply includes_true. unfold includes. by rewrite Ei. }
  apply occurs_addPlugin_bwd in Hr; [|by_eval..].
  apply addImport_creates_marker, addPlugin_keeps_import in Hr.
  congruence.
Qed.

(** C2. Applying the patch of step 4 twice gives the same text as
    applying it once, for every initial text: the second application
    inserts neither a second import line nor a second array entry. *)
Theorem patchConfig_idempotent (config : jsstring) :
  patchConfig (patchConfig config) = patchConfig config.
Proof.
  unfold patchConfig.
  rewrite addImport_after_addPlugin. apply addPlugin_idem.
Qed.

Lemma addImport_guard (c : jsstring) :
  includes c TAILWIND_IMPORT = true -> addImport c = c.
Proof. intros H. unfold addImport. by rewrite H. Qed.

Lemma addPlugin_guard (c : jsstring) :
  includes c TAILWIND_CALL = true -> addPlugin c = c.
Proof. intros H. unfold addPlugin. by rewrite H. Qed.

(** C6, as stated, fails.  With only the import line present the array
    entry is still inserted; with only the call present the import line
    is still inserted: each guard looks at its own marker. *)
Lemma patchConfig_one_marker_changes :
  (includes importedConfig TAILWIND_IMPORT = true
   /\ patchConfig importedConfig <> importedConfig)
  /\ (includes calledConfig TAILWIND_CALL = true
      /\ patchConfig calledConfig <> calledConfig).
Proof.
  split; (split; [by_eval|]).
  - intros H. apply (f_equal length) in H. vm_compute in H. done.
  - intros H. apply (f_equal length) in H. vm_compute in H. done.
Qed.

(** C6, amended.  When both markers (the tailwind import line and the
    [tailwindcss()] call) are present, the patch is a no-op: the text
    written back is the text read. *)
Theorem patchConfig_noop_both_markers (config : jsstring) :
  includes config TAILWIND_IMPORT = true ->
  includes config TAILWIND_CALL = true ->
  patchConfig config = config.
Proof.
  intros Hi Hc. unfold patchConfig.
  rewrite (addImport_guard _ Hi). by apply addPlugin_guard.
Qed.

Lemma patchConfig_noop_both_markers_witness :
  includes patchedConfig TAILWIND_IMPORT = true
  /\ includes patchedConfig TAILWIND_CALL = true
  /\ patchConfig patchedConfig = patchedConfig.
Proof.
  split; [|split].
  - vm_compute; reflexivity.
  - vm_compute; reflexivity.
  - apply (patchConfig_noop_both_markers patchedConfig);
      vm_compute; reflexivity.
Defined.

(** C1, as stated, fails.  [commentedConfig] holds the react import as a
    line of its own and the text [plugins: [react()]], and neither
    marker; yet the first match of [/plugins:\s*\[/] is the one in the
    comment, whose tab is replaced by a space: the original text is not
    kept, and the entry does not land in the [plugins: [react()]] array. *)
Lemma patchConfig_not_preserving :
  (REACT_IMPORT ∈ lines commentedConfig
   /\ occurs (lit "plugins: [react()]") commentedConfig
   /\ includes commentedConfig TAILWIND_IMPORT = false
   /\ includes commentedConfig TAILWIND_CALL = false)
  /\ ~ (commentedConfig `sublist_of` patchConfig commentedConfig)
  /\ ~ occurs (PLUGINS_ENTRY ++ lit "react()]") (patchConfig commentedConfig).
Proof.
  split; [split; [|split; [|split]]|split].
  - by_eval.
  - apply includes_true. by_eval.
  - by_eval.
  - by_eval.
  - intros H%subseqb_sublist. vm_compute in H. done.
  - intros H%includes_true. vm_compute in H. done.
Qed.

(** C1, amended.  For every text that contains the react import and
    [plugins: [react()]] and neither marker: the tailwind import line is
    inserted right after the first occurrence of the react import; the
    first match of [/plugins:\s*\[/] in the text so obtained is replaced
    by [plugins: [], a line feed and [    tailwindcss(),]; the react
    import directly followed by the tailwind import line occurs in the
    result; and every character of the original is kept, in order, but
    for the white space [ws] between [plugins:] and [[] in that match,
    which becomes one space (so everything is kept when [ws] is one
    space already). *)
Theorem patchConfig_vite_template (config : jsstring) :
  occurs REACT_IMPORT config ->
  occurs (lit "plugins: [react()]") config ->
  includes config TAILWIND_IMPORT = false ->
  includes config TAILWIND_CALL = false ->
  exists pre post u ws v,
    config = pre ++ REACT_IMPORT ++ post
    /\ indexOf config REACT_IMPORT = Some (length pre)
    /\ pre ++ REACT_IMPORT ++ NL ++ TAILWIND_IMPORT ++ post
       = u ++ lit "plugins:" ++ ws ++ [LBRACKET] ++ v
    /\ forallb is_space ws = true
    /\ searchPlugins (pre ++ REACT_IMPORT ++ NL ++ TAILWIND_IMPORT ++ post)
       = Some (length u, 9 + length ws)
    /\ patchConfig config
       = u ++ lit "plugins:" ++ lit " " ++ [LBRACKET]
           ++ NL ++ lit "    tailwindcss()," ++ v
    /\ occurs (REACT_IMPORT ++ NL ++ TAILWIND_IMPORT) (patchConfig config)
    /\ config `sublist_of`
         (u ++ lit "plugins:" ++ ws ++ [LBRACKET]
            ++ NL ++ lit "    tailwindcss()," ++ v)
    /\ (ws = lit " " -> config `sublist_of` patchConfig config).
Proof.
  intros Hr Hp Hi Hc.
  assert (Hmid : occurs (REACT_IMPORT ++ NL ++ TAILWIND_IMPORT)
                   (addImport config)
                 /\ exists pre post,
                      config = pre ++ REACT_IMPORT ++ post
                      /\ indexOf config REACT_IMPORT = Some (length pre)
                      /\ addImport config
                         = pre ++ REACT_IMPORT ++ NL ++ TAILWIND_IMPORT ++ post).
  { destruct (addImport_cases config) as [| |pre post _ Hcfg Hidx];
      [congruence|done|].
    split; [|by exists pre, post].
    exists pre, post. by rewrite <- ?app_assoc. }
  destruct Hmid as (Hline & pre & post & Hcfg & Hidx & Hmid).
  assert (Hcall : includes (addImport config) TAILWIND_CALL = false).
  { apply includes_false. intros H.
    apply occurs_addImport_bwd in H; [|by_eval..].
    by apply includes_false in Hc. }
  assert (Harr : hasPluginsArray (addImport config)).
  { apply occurs_addImport_fwd in Hp; [|by_eval].
    destruct Hp as (a & b & Hab).
    exists a, (lit " "), (lit "react()]" ++ b). split; [|done].
    rewrite Hab. reflexivity. }
  assert (Hkeep : occurs (REACT_IMPORT ++ NL ++ TAILWIND_IMPORT)
                    (patchConfig config)).
  { apply occurs_addPlugin_fwd; [by_eval..|done]. }
  unfold patchConfig in *.
  destruct (addPlugin_cases (addImport config)) as [| |u ws v _ Hsplit Hws Hs];
    [congruence|done|].
  rewrite Hmid in Hsplit, Hs.
  exists pre, post, u, ws, v.
  assert (Hsub : config `sublist_of`
            (u ++ lit "plugins:" ++ ws ++ [LBRACKET]
               ++ NL ++ lit "    tailwindcss()," ++ v)).
  { trans (pre ++ REACT_IMPORT ++ NL ++ TAILWIND_IMPORT ++ post).
    - rewrite Hcfg. do 2 (apply sublist_app; [done|]).
      by do 2 apply sublist_inserts_l.
    - rewrite Hsplit. do 4 (apply sublist_app; [done|]).
      by do 2 apply sublist_inserts_l. }
  repeat split; try done.
  intros ->. exact Hsub.
Qed.

Lemma patchConfig_vite_template_witness :
  occurs REACT_IMPORT viteConfig
  /\ occurs (lit "plugins: [react()]") viteConfig
  /\ exists pre post u ws v,
       viteConfig = pre ++ REACT_IMPORT ++ post
       /\ indexOf viteConfig REACT_IMPORT = Some (length pre)
       /\ pre ++ REACT_IMPORT ++ NL ++ TAILWIND_IMPORT ++ post
          = u ++ lit "plugins:" ++ ws ++ [LBRACKET] ++ v
       /\ forallb is_space ws = true
       /\ searchPlugins
            (pre ++ REACT_IMPORT ++ NL ++ TAILWIND_IMPORT ++ post)
          = Some (length u, 9 + length ws)
       /\ patchConfig viteConfig
          = u ++ lit "plugins:" ++ lit " " ++ [LBRACKET]
              ++ NL ++ lit "    tailwindcss()," ++ v
       /\ occurs (REACT_IMPORT ++ NL ++ TAILWIND_IMPORT)
            (patchConfig viteConfig)
       /\ viteConfig `sublist_of`
            (u ++ lit "plugins:" ++ ws ++ [LBRACKET]
               ++ NL ++ lit "    tailwindcss()," ++ v)
       /\ (ws = lit " " -> viteConfig `sublist_of` patchConfig viteConfig).
Proof.
  assert (Hr : occurs REACT_IMPORT viteConfig)
    by (apply includes_true; vm_compute; reflexivity).
  assert (Hp : occurs (lit "plugins: [react()]") viteConfig)
    by (apply includes_true; vm_compute; reflexivity).
  split; [exact Hr|split; [exact Hp|]].
  apply (patchConfig_vite_template viteConfig Hr Hp);
    vm_compute; reflexivity.
Defined.

(** ** Facts about the run *)

Module RunFacts.

(** *** [trim] *)

Lemma forallb_reverse (f : N -> bool) (l : list N) :
  forallb f (reverse l) = forallb f l.
Proof.
  apply eq_true_iff_eq. rewrite !forallb_forall.
  split; intros H x Hx; apply H; apply list_elem_of_In;
    apply list_elem_of_In in Hx; by apply elem_of_reverse.
Qed.

Lemma trimStart_spec (s : jsstring) :
  exists l, s = l ++ trimStart s
            /\ forallb is_space l = true
            /\ forall c, head (trimStart s) = Some c -> is_space c = false.
Proof.
  induction s as [|a s (l & Hl & Hsp & Hh)]; simpl.
  - by exists [].
  - destruct (is_space a) eqn:E.
    + exists (a :: l). simpl. rewrite E, Hsp. split; [by f_equal|done].
    + exists []. simpl. split; [done|]. split; [done|]. by intros c [= <-].
Qed.

Lemma trimEnd_spec (s : jsstring) :
  exists r, s = trimEnd s ++ r
            /\ forallb is_space r = true
            /\ forall c, last (trimEnd s) = Some c -> is_space c = false.
Proof.
  unfold trimEnd.
  destruct (trimStart_spec (reverse s)) as (l & Hl & Hsp & Hh).
  exists (reverse l). split; [|split].
  - rewrite <- reverse_app, <- Hl. by rewrite reverse_involutive.
  - by rewrite forallb_reverse.
  - intros c. rewrite last_reverse. apply Hh.
Qed.

(** [trim] removes a run of white space at each end and nothing else. *)
Lemma trim_spec (a : jsstring) :
  exists l r,
    a = l ++ trim a ++ r
    /\ forallb is_space l = true /\ forallb is_space r = true
    /\ (forall c, head (trim a) = Some c -> is_space c = false)
    /\ (forall c, last (trim a) = Some c -> is_space c = false).
Proof.
  unfold trim.
  destruct (trimStart_spec a) as (l & Hl & Hsl & Hh).
  destruct (trimEnd_spec (trimStart a)) as (r & Hr & Hsr & Hlast).
  exists l, r. repeat split; try done.
  - by rewrite <- Hr.
  - intros c Hc. apply Hh. rewrite Hr.
    destruct (trimEnd (trimStart a)); [done|]. done.
Qed.

Lemma truthy_true (s : jsstring) : truthy s = true <-> s <> [].
Proof. by destruct s. Qed.

(** *** The prompt loop *)

(** One round of the loop. *)
Lemma promptLoop_S (w : world) (fuel : nat) (s : state) :
  promptLoop w (S fuel) s
  = match stdin s with
    | [] =>
        (Pending,
         State (fs s) []
           (trace s ++ promptEvents 0
            ++ (if stdinEnds w then [InputEnded] else [])))
    | (a, _) :: rest =>
        if truthy (trim a)
        then (Ok (trim a), State (fs s) rest (trace s ++ promptEvents 0))
        else promptLoop w fuel
               (State (fs s) rest
                  (trace s
                   ++ [Question (promptLine (lit "Project name:"));
                       ConsoleLog
                         (errorLine (lit "Project name cannot be empty"))]))
    end.
Proof.
  destruct s as [f [|[a late] i] t].
  - cbn [promptLoop]. unfold askQuestion, question, bind, ret.
    cbn [stdin fs trace].
    destruct (stdinEnds w); cbn [stdin fs trace promptEvents app];
      by rewrite <- ?app_assoc, ?app_nil_r.
  - cbn [promptLoop]. unfold askQuestion, question, bind, ret.
    cbn [stdin fs trace].
    destruct (truthy (trim a)); [reflexivity|].
    unfold logError, emit. cbn [stdin fs trace].
    by rewrite <- app_assoc.
Qed.

Lemma promptLoop_found (w : world) (blanks : list delivery)
    (ans : jsstring) (late : list jsstring) (rest : list delivery)
    (k : nat) (s : state) :
  stdin s = blanks ++ (ans, late) :: rest ->
  Forall (fun d : delivery => trim d.1 = []) blanks ->
  trim ans <> [] ->
  promptLoop w (length blanks + S k) s
  = (Ok (trim ans),
     State (fs s) rest (trace s ++ promptEvents (length blanks))).
Proof.
  intros Hin Hblank Hans. revert s Hin.
  induction Hblank as [|[b lb] blanks Hb Hblank IH]; intros s Hin.
  - apply truthy_true in Hans. change (length [] + S k) with (S k).
    rewrite promptLoop_S, Hin.
    simpl. by rewrite Hans.
  - change (length ((b, lb) :: blanks) + S k)
      with (S (length blanks + S k)).
    rewrite promptLoop_S, Hin. simpl in Hb |- *. rewrite Hb. simpl.
    rewrite IH by done. simpl. by rewrite <- app_assoc.
Qed.

Lemma promptLoop_exhausted (w : world) (k : nat) (s : state) :
  Forall (fun d : delivery => trim d.1 = []) (stdin s) ->
  promptLoop w (length (stdin s) + S k) s
  = (Pending,
     State (fs s) []
       (trace s ++ promptEvents (length (stdin s))
        ++ (if stdinEnds w then [InputEnded] else []))).
Proof.
  destruct s as [f i t]. simpl. revert t.
  induction i as [|[b lb] i IH]; intros t Hblank.
  - change (length [] + S k) with (S k). by rewrite promptLoop_S.
  - apply Forall_cons in Hblank as [Hb Hblank].
    change (length ((b, lb) :: i) + S k) with (S (length i + S k)).
    rewrite promptLoop_S. simpl in Hb |- *. rewrite Hb. simpl.
    rewrite IH by done. by rewrite <- ?app_assoc.
Qed.

Lemma promptProjectName_found (w : world) (blanks : list delivery)
    (ans : jsstring) (late : list jsstring) (rest : list delivery)
    (s : state) :
  stdin s = blanks ++ (ans, late) :: rest ->
  Forall (fun d : delivery => trim d.1 = []) blanks ->
  trim ans <> [] ->
  promptProjectName w s
  = (Ok (trim ans),
     State (fs s) rest (trace s ++ promptEvents (length blanks))).
Proof.
  intros Hin Hblank Hans. unfold promptProjectName.
  assert (Hlen : S (length (stdin s))
                 = length blanks + S (S (length rest))).
  { rewrite Hin, length_app. simpl. lia. }
  rewrite Hlen. by apply (promptLoop_found w blanks ans late).
Qed.

Lemma promptProjectName_exhausted (w : world) (s : state) :
  Forall (fun d : delivery => trim d.1 = []) (stdin s) ->
  promptProjectName w s
  = (Pending,
     State (fs s) []
       (trace s ++ promptEvents (length (stdin s))
        ++ (if stdinEnds w then [InputEnded] else []))).
Proof.
  intros Hblank. unfold promptProjectName.
  replace (S (length (stdin s))) with (length (stdin s) + 1) by lia.
  by apply promptLoop_exhausted.
Qed.

Lemma promptEvents_Forall (P : event -> Prop) (n : nat) :
  P (Question (promptLine (lit "Project name:"))) ->
  P (ConsoleLog (errorLine (lit "Project name cannot be empty"))) ->
  Forall P (promptEvents n).
Proof. intros Hq Hl. induction n; simpl; repeat constructor; done. Qed.

(** *** The steps, one outcome at a time *)

Ltac unfold_run :=
  cbv [bind ret throw try_catch emit start await promiseAll2 processExit
       logStep logSuccess logError execSync runCommandWithSpinner runProcess
       readFile writeFile];
  cbn [fs stdin trace fst snd].

Ltac finish_run :=
  cbv beta iota; cbn [fs stdin trace fst snd files unreadable unwritable];
  rewrite <- ?app_assoc; reflexivity.

Lemma step1_ok (w : world) (name : jsstring) (s : state) (f1 : fsys) :
  spawn w (scaffoldCommand name) (scaffoldDir w) (fs s) = (f1, Some 0%Z) ->
  step1 w name (projectPathOf w name) s
  = (Ok tt, State f1 (stdin s) (trace s ++ scaffolded w name)).
Proof.
  intros H. unfold step1. unfold_run. rewrite H.
  rewrite bool_decide_eq_true_2 by done. finish_run.
Qed.

Lemma step2_ok (w : world) (p : jsstring) (s : state) (f2 : fsys) :
  spawn w INSTALL p (fs s) = (f2, Some 0%Z) ->
  step2 w p s = (Ok tt, State f2 (stdin s) (trace s ++ installed p)).
Proof.
  intros H. unfold step2. unfold_run. rewrite H.
  rewrite bool_decide_eq_true_2 by done. finish_run.
Qed.

Lemma step2_fail (w : world) (p : jsstring) (s : state) (f2 : fsys)
    (code : option Z) :
  spawn w INSTALL p (fs s) = (f2, code) -> code <> Some 0%Z ->
  step2 w p s
  = (Throw (CommandFailed code),
     State f2 (stdin s) (trace s ++ installFailed p)).
Proof.
  intros H Hcode. unfold step2. unfold_run. rewrite H.
  rewrite bool_decide_eq_false_2 by done. finish_run.
Qed.

Lemma step3_ok (w : world) (p : jsstring) (s : state) (f3 : fsys) :
  spawn w INSTALL_TAILWIND p (fs s) = (f3, Some 0%Z) ->
  step3 w p s = (Ok tt, State f3 (stdin s) (trace s ++ tailwindInstalled p)).
Proof.
  intros H. unfold step3. unfold_run. rewrite H.
  rewrite bool_decide_eq_true_2 by done. finish_run.
Qed.

Lemma step4_read_fail (p : jsstring) (s : state) :
  unreadableAt (fs s) (viteConfigPath p) ->
  step4 p s
  = (Ok tt,
     State (fs s) (stdin s) (trace s ++ configStarted p ++ configWarned)).
Proof.
  intros H. unfold step4. unfold_run.
  destruct (decide (viteConfigPath p ∈ unreadable (fs s))) as [Hin|Hin].
  - rewrite bool_decide_eq_true_2 by done. finish_run.
  - destruct H as [H|H]; [done|].
    rewrite bool_decide_eq_false_2 by done. rewrite H. finish_run.
Qed.

Lemma step4_ok (p : jsstring) (s : state) (config : jsstring) :
  readable (fs s) (viteConfigPath p) config ->
  viteConfigPath p ∉ unwritable (fs s) ->
  step4 p s
  = (Ok tt,
     State (written (fs s) (viteConfigPath p) (patchConfig config))
       (stdin s)
       (trace s ++ configStarted p
        ++ configWritten p (patchConfig config))).
Proof.
  intros [Hr Hl] Hw. unfold step4. unfold_run.
  rewrite bool_decide_eq_false_2 by done. rewrite Hl.
  cbn [fs stdin trace]. rewrite bool_decide_eq_false_2 by done.
  finish_run.
Qed.

Lemma step4_write_fail (p : jsstring) (s : state) (config : jsstring) :
  readable (fs s) (viteConfigPath p) config ->
  viteConfigPath p ∈ unwritable (fs s) ->
  step4 p s
  = (Ok tt,
     State (fs s) (stdin s)
       (trace s ++ configStarted p
        ++ [WriteFile (viteConfigPath p) (patchConfig config)]
        ++ configWarned)).
Proof.
  intros [Hr Hl] Hw. unfold step4. unfold_run.
  rewrite bool_decide_eq_false_2 by done. rewrite Hl.
  cbn [fs stdin trace]. rewrite bool_decide_eq_true_2 by done.
  finish_run.
Qed.

(** Step 5 always attempts both writes; it reports success exactly when
    both are accepted. *)
Lemma step5_run (p : jsstring) (s : state) :
  exists f' tail,
    step5 p s
    = (Ok tt, State f' (stdin s) (trace s ++ cssStarted p ++ tail))
    /\ ((tail = cssDone
         /\ f' = written (written (fs s) (indexCssPath p) CSS_IMPORT)
                   (appCssPath p) CSS_IMPORT)
        \/ (tail = cssWarned
            /\ (indexCssPath p ∈ unwritable (fs s)
                \/ appCssPath p ∈ unwritable (fs s)))).
Proof.
  unfold step5. unfold_run.
  destruct (decide (indexCssPath p ∈ unwritable (fs s))) as [H1|H1];
    destruct (decide (appCssPath p ∈ unwritable (fs s))) as [H2|H2].
  - rewrite (bool_decide_eq_true_2 _ H1). cbn [fs stdin trace].
    rewrite (bool_decide_eq_true_2 _ H2).
    eexists _, cssWarned. split; [finish_run|]. right. auto.
  - rewrite (bool_decide_eq_true_2 _ H1). cbn [fs stdin trace].
    rewrite (bool_decide_eq_false_2 _ H2).
    eexists _, cssWarned. split; [finish_run|]. right. auto.
  - rewrite (bool_decide_eq_false_2 _ H1).
    cbn [fs stdin trace unwritable].
    rewrite (bool_decide_eq_true_2 _ H2).
    eexists _, cssWarned. split; [finish_run|]. right. auto.
  - rewrite (bool_decide_eq_false_2 _ H1).
    cbn [fs stdin trace unwritable].
    rewrite (bool_decide_eq_false_2 _ H2).
    eexists _, cssDone. split; [finish_run|]. left. auto.
Qed.

Lemma step6_run (name : jsstring) (s : state) :
  step6 name s
  = (Ok tt, State (fs s) (stdin s) (trace s ++ finished name)).
Proof. unfold step6. unfold_run. finish_run. Qed.

(** The command-line wrapper, by the outcome of [createProject]. *)
Lemma cli_run (w : world) (s : state) :
  cli w s
  = match createProject w s with
    | (Ok _, s1) =>
        (Exit 0, State (fs s1) (stdin s1) (trace s1 ++ [Close]))
    | (Throw e, s1) =>
        (Exit 1, State (fs s1) (stdin s1) (trace s1 ++ setupFailed e))
    | (Exit c, s1) => (Exit c, s1)
    | (Pending, s1) => (Pending, s1)
    end.
Proof.
  unfold cli. unfold_run.
  destruct (createProject w s) as [[a|e|c|] s1]; try reflexivity.
  finish_run.
Qed.

Lemma createProject_named (w : world) (blanks : list delivery)
    (ans : jsstring) (late : list jsstring) (rest : list delivery)
    (s : state) :
  stdin s = blanks ++ (ans, late) :: rest ->
  Forall (fun d : delivery => trim d.1 = []) blanks ->
  trim ans <> [] ->
  createProject w s
  = pipeline w (trim ans)
      (State (fs s) rest
         (trace s ++ ConsoleLog banner :: promptEvents (length blanks))).
Proof.
  intros Hin Hblank Hans. unfold createProject, bind at 1 2, emit.
  rewrite (promptProjectName_found w blanks ans late rest) by done.
  cbn [fs stdin trace]. by rewrite <- app_assoc.
Qed.

(** *** What a computation can add to the trace *)

Lemma emitsOnly_ret {A} (P : event -> Prop) (a : A) : emitsOnly P (ret a).
Proof. intros s. split; [done|]. exists []. by rewrite app_nil_r. Qed.

Lemma emitsOnly_throw {A} (P : event -> Prop) (e : error) :
  emitsOnly P (@throw A e).
Proof. intros s. split; [done|]. exists []. by rewrite app_nil_r. Qed.

Lemma emitsOnly_emit (P : event -> Prop) (e : event) :
  P e -> emitsOnly P (emit e).
Proof. intros He s. split; [done|]. exists [e]. split; [done|]. by constructor. Qed.

Lemma emitsOnly_bind {A B} (P : event -> Prop) (m : M A) (k : A -> M B) :
  emitsOnly P m -> (forall a, emitsOnly P (k a)) -> emitsOnly P (bind m k).
Proof.
  intros Hm Hk s. unfold bind.
  destruct (Hm s) as [Hne (t & Ht & HP)].
  destruct (m s) as [[a|e|c|] s1]; simpl in *.
  - destruct (Hk a s1) as [Hne' (t' & Ht' & HP')]. split; [done|].
    exists (t ++ t'). rewrite Ht', Ht, app_assoc. split; [done|].
    by apply Forall_app.
  - split; [done|]. by exists t.
  - by destruct (Hne c).
  - split; [done|]. by exists t.
Qed.

Lemma emitsOnly_try_catch {A} (P : event -> Prop) (m : M A)
    (h : error -> M A) :
  emitsOnly P m -> (forall e, emitsOnly P (h e)) ->
  emitsOnly P (try_catch m h).
Proof.
  intros Hm Hh s. unfold try_catch.
  destruct (Hm s) as [Hne (t & Ht & HP)].
  destruct (m s) as [[a|e|c|] s1]; simpl in *.
  - split; [done|]. by exists t.
  - destruct (Hh e s1) as [Hne' (t' & Ht' & HP')]. split; [done|].
    exists (t ++ t'). rewrite Ht', Ht, app_assoc. split; [done|].
    by apply Forall_app.
  - by destruct (Hne c).
  - split; [done|]. by exists t.
Qed.

Lemma emitsOnly_if {A} (P : event -> Prop) (b : bool) (m1 m2 : M A) :
  emitsOnly P m1 -> emitsOnly P m2 -> emitsOnly P (if b then m1 else m2).
Proof. by destruct b. Qed.

Lemma emitsOnly_question (P : event -> Prop) (w : world) (q : jsstring) :
  P (Question q) -> P InputEnded -> emitsOnly P (question w q).
Proof.
  intros HP HE s. unfold question.
  destruct (stdin s) as [|[a late] rest]; [destruct (stdinEnds w)|];
    simpl; (split; [done|]).
  - exists [Question q; InputEnded]. rewrite <- app_assoc.
    split; [done|]. by repeat constructor.
  - exists [Question q]. split; [done|]. by constructor.
  - exists [Question q]. split; [done|]. by constructor.
Qed.

Lemma emitsOnly_runProcess (P : event -> Prop) (w : world)
    (command dir : jsstring) :
  emitsOnly P (runProcess w command dir).
Proof.
  intros s. unfold runProcess. destruct (spawn w command dir (fs s)).
  simpl. split; [done|]. exists []. by rewrite app_nil_r.
Qed.

Lemma emitsOnly_readFile (P : event -> Prop) (p : jsstring) :
  P (ReadFile p) -> emitsOnly P (readFile p).
Proof.
  intros HP s. unfold readFile, bind, emit. cbn [fs stdin trace].
  destruct (bool_decide (p ∈ unreadable (fs s)));
    [|destruct (files (fs s) !! p)]; simpl;
    (split; [done|]); exists [ReadFile p]; (split; [done|]);
    by constructor.
Qed.

Lemma emitsOnly_writeFile (P : event -> Prop) (p data : jsstring) :
  P (WriteFile p data) -> emitsOnly P (writeFile p data).
Proof.
  intros HP s. unfold writeFile, bind, emit. cbn [fs stdin trace].
  destruct (bool_decide (p ∈ unwritable (fs s))); simpl;
    (split; [done|]); exists [WriteFile p data]; (split; [done|]);
    by constructor.
Qed.

Lemma emitsOnly_promiseAll2 (P : event -> Prop) (a b : M unit) :
  emitsOnly P a -> emitsOnly P b -> emitsOnly P (promiseAll2 a b).
Proof.
  intros Ha Hb s. unfold promiseAll2, bind, start, await.
  destruct (Ha s) as [Hna (ta & Hta & HPa)].
  destruct (a s) as [ra s1]. simpl in *.
  destruct (Hb s1) as [Hnb (tb & Htb & HPb)].
  destruct (b s1) as [rb s2]. simpl in *.
  assert (Ht : exists t, trace s2 = trace s ++ t /\ Forall P t).
  { exists (ta ++ tb). rewrite Htb, Hta, app_assoc. split; [done|].
    by apply Forall_app. }
  destruct ra as [[]|ea|ca|]; simpl.
  - by split.
  - by split.
  - by destruct (Hna ca).
  - by split.
Qed.

Lemma emitsOnly_promptLoop (P : event -> Prop) (w : world) (fuel : nat) :
  P (Question (promptLine (lit "Project name:"))) ->
  P InputEnded ->
  P (ConsoleLog (errorLine (lit "Project name cannot be empty"))) ->
  emitsOnly P (promptLoop w fuel).
Proof.
  intros Hq He Hl. induction fuel as [|fuel IH].
  - intros s. simpl. split; [done|]. exists []. by rewrite app_nil_r.
  - cbn [promptLoop]. unfold askQuestion, logError.
    apply emitsOnly_bind.
    + apply emitsOnly_bind; [by apply emitsOnly_question|].
      intros a. apply emitsOnly_ret.
    + intros a. apply emitsOnly_if; [apply emitsOnly_ret|].
      apply emitsOnly_bind; [by apply emitsOnly_emit|done].
Qed.

Lemma emitsOnly_promptProjectName (P : event -> Prop) (w : world) :
  P (Question (promptLine (lit "Project name:"))) ->
  P InputEnded ->
  P (ConsoleLog (errorLine (lit "Project name cannot be empty"))) ->
  emitsOnly P (promptProjectName w).
Proof.
  intros Hq He Hl s. unfold promptProjectName.
  by apply emitsOnly_promptLoop.
Qed.

(** Break a computation into its primitive actions; what is left are the
    obligations [P e] for the events [e] it can emit. *)
Ltac emits :=
  repeat first
    [ apply emitsOnly_ret
    | apply emitsOnly_throw
    | apply emitsOnly_runProcess
    | apply emitsOnly_readFile
    | apply emitsOnly_writeFile
    | apply emitsOnly_promiseAll2
    | apply emitsOnly_promptProjectName
    | apply emitsOnly_emit
    | apply emitsOnly_if
    | apply emitsOnly_bind; [|intros ?]
    | apply emitsOnly_try_catch; [|intros ?] ].

Lemma emitsOnly_pipeline (P : event -> Prop) (w : world) (name : jsstring) :
  (forall l, P (ConsoleLog l)) ->
  (forall t, P (SpinnerStart t)) ->
  (forall t, P (SpinnerSucceed t)) ->
  (forall t, P (SpinnerFail t)) ->
  (forall ms, P (SetTimeout ms)) ->
  (forall c, P (ExecSync c (scaffoldDir w))) ->
  (forall c, P (Exec c (projectPathOf w name))) ->
  P (ReadFile (viteConfigPath (projectPathOf w name))) ->
  (forall d, P (WriteFile (viteConfigPath (projectPathOf w name)) d)) ->
  (forall d, P (WriteFile (indexCssPath (projectPathOf w name)) d)) ->
  (forall d, P (WriteFile (appCssPath (projectPathOf w name)) d)) ->
  emitsOnly P (pipeline w name).
Proof.
  intros. unfold pipeline, step1, step2, step3, step4, step5, step6,
    execSync, runCommandWithSpinner, logStep, logSuccess, logError.
  emits; done.
Qed.

(** The same for the whole of [createProject], keeping track of the
    directory the commands and the files are in. *)
Lemma emitsOnly_createProject_in (P : event -> Prop) (w : world) :
  (forall l, P (ConsoleLog l)) ->
  (forall q, P (Question q)) ->
  P InputEnded ->
  (forall t, P (SpinnerStart t)) ->
  (forall t, P (SpinnerSucceed t)) ->
  (forall t, P (SpinnerFail t)) ->
  (forall ms, P (SetTimeout ms)) ->
  (forall c, P (ExecSync c (scaffoldDir w))) ->
  (forall name c, P (Exec c (projectPathOf w name))) ->
  (forall name, P (ReadFile (viteConfigPath (projectPathOf w name)))) ->
  (forall name d, P (WriteFile (viteConfigPath (projectPathOf w name)) d)) ->
  (forall name d, P (WriteFile (indexCssPath (projectPathOf w name)) d)) ->
  (forall name d, P (WriteFile (appCssPath (projectPathOf w name)) d)) ->
  emitsOnly P (createProject w).
Proof.
  intros. unfold createProject.
  apply emitsOnly_bind; [by apply emitsOnly_emit|intros _].
  apply emitsOnly_bind; [by apply emitsOnly_promptProjectName|intros name].
  by apply emitsOnly_pipeline.
Qed.

Lemma emitsOnly_createProject (P : event -> Prop) (w : world) :
  (forall l, P (ConsoleLog l)) ->
  (forall q, P (Question q)) ->
  P InputEnded ->
  (forall t, P (SpinnerStart t)) ->
  (forall t, P (SpinnerSucceed t)) ->
  (forall t, P (SpinnerFail t)) ->
  (forall ms, P (SetTimeout ms)) ->
  (forall c d, P (ExecSync c d)) ->
  (forall c d, P (Exec c d)) ->
  (forall p, P (ReadFile p)) ->
  (forall p d, P (WriteFile p d)) ->
  emitsOnly P (createProject w).
Proof.
  intros. unfold createProject.
  apply emitsOnly_bind; [by apply emitsOnly_emit|intros _].
  apply emitsOnly_bind; [by apply emitsOnly_promptProjectName|intros name].
  by apply emitsOnly_pipeline.
Qed.

Lemma countClose_app (t1 t2 : list event) :
  countClose (t1 ++ t2) = countClose t1 + countClose t2.
Proof. unfold countClose. by rewrite List.filter_app, length_app. Qed.

Lemma countClose_none (t : list event) :
  Forall (fun e => isClose e = false) t -> countClose t = 0.
Proof.
  unfold countClose. induction 1 as [|e t He _ IH]; simpl; [done|].
  by rewrite He.
Qed.

End RunFacts.

Import RunFacts.

(** ** The run: prompt, failure paths, files *)

Lemma trim_blank (a : jsstring) :
  trim a = [] <-> forallb is_space a = true.
Proof.
  split.
  - intros H. destruct (trim_spec a) as (l & r & Ha & Hl & Hr & _).
    rewrite H in Ha. rewrite Ha. simpl. rewrite forallb_app.
    by rewrite Hl, Hr.
  - intros H. assert (Hs : trimStart a = []).
    { induction a as [|c a IH]; simpl in *; [done|].
      apply andb_true_iff in H as [-> H]. by apply IH. }
    unfold trim. by rewrite Hs.
Qed.

Lemma prompt_nonblank_facts (blanks : list delivery) (ans : jsstring) :
  Forall (fun d : delivery => forallb is_space d.1 = true) blanks ->
  forallb is_space ans = false ->
  Forall (fun d : delivery => trim d.1 = []) blanks /\ trim ans <> [].
Proof.
  intros Hblank Hans. split.
  - eapply Forall_impl; [exact Hblank|]. intros a. apply trim_blank.
  - intros H%trim_blank. congruence.
Qed.

(** Without an answer that holds more than white space the prompt never
    returns, and nothing but questions and complaints has happened; when
    the input ends, readline closes the interface. *)
Lemma createProject_blank_input (w : world) (s : state) :
  Forall (fun d : delivery => forallb is_space d.1 = true) (stdin s) ->
  createProject w s
  = (Pending,
     State (fs s) []
       (trace s ++ ConsoleLog banner :: promptEvents (length (stdin s))
        ++ (if stdinEnds w then [InputEnded] else []))).
Proof.
  intros Hblank. unfold createProject, bind at 1 2, emit.
  rewrite promptProjectName_exhausted.
  - cbn [fs stdin trace]. by rewrite <- app_assoc.
  - cbn [stdin]. eapply Forall_impl; [exact Hblank|].
    intros a. apply trim_blank.
Qed.

Lemma typedLines_app (i j : list delivery) :
  typedLines (i ++ j) = typedLines i ++ typedLines j.
Proof. unfold typedLines. by rewrite map_app, concat_app. Qed.

Lemma typedLines_undropped (i : list delivery) :
  Forall (fun d : delivery => d.2 = []) i -> typedLines i = map fst i.
Proof.
  induction 1 as [|[a late] i Ha _ IH]; [done|].
  simpl in Ha. subst late. unfold typedLines in *. simpl. by rewrite IH.
Qed.

(** C4, as stated, fails.  A line that arrives in one chunk with an
    earlier line never reaches the prompt.  With a blank line and [demo]
    in one chunk and [other] typed after the next prompt, the first
    input that is not empty after trimming is [demo], but the prompt
    returns [other].  With the three lines of [demoInput] in one chunk
    the prompt complains about the empty line, asks again and waits,
    although [ demo ] has been typed; no process is started. *)
Lemma prompt_misses_chunked_line :
  typedLines lateInput = [lit " "; lit "demo"; lit "other"]
  /\ (promptProjectName cliWorld (initial emptyFs lateInput)).1
     = Ok (lit "other")
  /\ typedLines demoChunk = typedLines demoInput
  /\ (promptProjectName cliWorld (initial emptyFs demoInput)).1
     = Ok (lit "demo")
  /\ (promptProjectName cliWorld (initial emptyFs demoChunk)).1 = Pending
  /\ (cli pipedWorld (initial emptyFs demoChunk)).1 = Pending
  /\ Forall (fun e => isProcess e = false)
       (trace (cli pipedWorld (initial emptyFs demoChunk)).2).
Proof.
  split; [reflexivity|]. split; [vm_compute; reflexivity|].
  split; [reflexivity|]. split; [vm_compute; reflexivity|].
  split; [vm_compute; reflexivity|]. split; [vm_compute; reflexivity|].
  vm_compute. repeat constructor.
Qed.

(** C4, amended.  Each question gets the first line of the next chunk of
    input that arrives while it is pending.  The prompt returns the
    first such line that is not empty after trimming, trimmed at both
    ends and otherwise unchanged; every such line before it, empty or
    white space only, is answered by a complaint and a new question; the
    name handed to the rest of [createProject] is not empty, and no
    external process has been started before.  When every line up to
    that answer came on its own, the answer is the first line typed that
    is not empty after trimming. *)
Theorem prompt_returns_first_nonblank (w : world) (blanks : list delivery)
    (ans : jsstring) (late : list jsstring) (rest : list delivery)
    (s : state) :
  stdin s = blanks ++ (ans, late) :: rest ->
  Forall (fun d : delivery => forallb is_space d.1 = true) blanks ->
  forallb is_space ans = false ->
  promptProjectName w s
  = (Ok (trim ans),
     State (fs s) rest (trace s ++ promptEvents (length blanks)))
  /\ (exists l r,
        ans = l ++ trim ans ++ r
        /\ forallb is_space l = true /\ forallb is_space r = true
        /\ (forall c, head (trim ans) = Some c -> is_space c = false)
        /\ (forall c, last (trim ans) = Some c -> is_space c = false))
  /\ trim ans <> []
  /\ createProject w s
     = pipeline w (trim ans)
         (State (fs s) rest
            (trace s ++ ConsoleLog banner :: promptEvents (length blanks)))
  /\ Forall (fun e => isProcess e = false)
       (ConsoleLog banner :: promptEvents (length blanks))
  /\ (Forall (fun d : delivery => d.2 = []) blanks ->
      exists typedBlanks,
        typedLines (stdin s)
        = typedBlanks ++ ans :: late ++ typedLines rest
        /\ Forall (fun a => forallb is_space a = true) typedBlanks).
Proof.
  intros Hin Hblank Hans.
  destruct (prompt_nonblank_facts _ _ Hblank Hans) as [Hb Hn].
  split; [by apply (promptProjectName_found w blanks ans late)|].
  split; [apply trim_spec|].
  split; [done|].
  split; [by apply (createProject_named w blanks ans late)|].
  split; [constructor; [done|]; by apply promptEvents_Forall|].
  intros Hone. exists (map fst blanks). split.
  - rewrite Hin, typedLines_app, (typedLines_undropped blanks) by done.
    reflexivity.
  - by apply Forall_map.
Qed.

Lemma prompt_returns_first_nonblank_witness :
  promptProjectName cliWorld (initial emptyFs demoInput)
  = (Ok (lit "demo"), State emptyFs [] (promptEvents 2))
  /\ (createProject cliWorld (initial emptyFs demoInput)).1
     = Ok (lit "/home/u/demo")
  /\ typedLines demoInput = [[]; lit "   "; lit " demo "].
Proof.
  destruct (prompt_returns_first_nonblank cliWorld
              [([], []); (lit "   ", [])]
              (lit " demo ") [] [] (initial emptyFs demoInput))
    as (Hp & _ & _ & Hc & _).
  - reflexivity.
  - repeat constructor.
  - reflexivity.
  - split; [exact Hp|]. split; [|reflexivity].
    rewrite Hc. vm_compute. reflexivity.
Defined.

(** C3. When [npm install] (step 2) does not exit with code 0, the run
    prints the failure messages, closes the terminal and exits with code
    1; the trace ends there: [vite.config.js] is neither read nor
    written and no CSS file is written. *)
Theorem install_failure_is_fatal (w : world) (blanks : list delivery)
    (ans : jsstring) (late : list jsstring) (rest : list delivery)
    (s : state) (f1 f2 : fsys)
    (code : option Z) :
  stdin s = blanks ++ (ans, late) :: rest ->
  Forall (fun d : delivery => forallb is_space d.1 = true) blanks ->
  forallb is_space ans = false ->
  spawn w (scaffoldCommand (trim ans)) (scaffoldDir w) (fs s)
  = (f1, Some 0%Z) ->
  spawn w INSTALL (projectPathOf w (trim ans)) f1 = (f2, code) ->
  code <> Some 0%Z ->
  exists t,
    t = ConsoleLog banner :: promptEvents (length blanks)
        ++ scaffolded w (trim ans)
        ++ installFailed (projectPathOf w (trim ans))
        ++ setupFailed (CommandFailed code)
    /\ cli w s = (Exit 1, State f2 rest (trace s ++ t))
    /\ Forall (fun e => isFileAccess e = false) t
    /\ ConsoleLog (errorLine (lit "Failed to install dependencies")) ∈ t
    /\ SpinnerFail (lit "Setup failed") ∈ t.
Proof.
  intros Hin Hblank Hans H1 H2 Hcode.
  destruct (prompt_nonblank_facts _ _ Hblank Hans) as [Hb Hn].
  eexists. split; [reflexivity|]. split; [|split; [|split]].
  - rewrite cli_run, (createProject_named w blanks ans late rest) by done.
    unfold pipeline, bind.
    erewrite step1_ok by (cbn [fs]; exact H1).
    erewrite step2_fail by (cbn [fs]; done).
    cbn [fs stdin trace]. rewrite <- ?app_assoc. reflexivity.
  - constructor; [done|]. rewrite !Forall_app. split; [|split; [|split]].
    + by apply promptEvents_Forall.
    + repeat constructor.
    + repeat constructor.
    + repeat constructor.
  - unfold installFailed. rewrite elem_of_cons, !elem_of_app.
    do 3 right. left. right. rewrite !elem_of_cons. auto.
  - unfold setupFailed. rewrite elem_of_cons, !elem_of_app.
    do 4 right. rewrite !elem_of_cons. auto.
Qed.

Lemma install_failure_is_fatal_witness :
  (cli failingWorld (initial emptyFs demoInput)).1 = Exit 1
  /\ Forall (fun e => isFileAccess e = false)
       (trace (cli failingWorld (initial emptyFs demoInput)).2).
Proof.
  destruct (install_failure_is_fatal failingWorld
              [([], []); (lit "   ", [])]
              (lit " demo ") [] [] (initial emptyFs demoInput)
              (spawnOk (scaffoldCommand (lit "demo")) (lit "/home/u")
                 emptyFs).1
              (spawnOk (scaffoldCommand (lit "demo")) (lit "/home/u")
                 emptyFs).1
              (Some 1%Z))
    as (t & _ & Hcli & Hfiles & _).
  - reflexivity.
  - repeat constructor.
  - reflexivity.
  - vm_compute. reflexivity.
  - vm_compute. reflexivity.
  - discriminate.
  - rewrite Hcli. split; [reflexivity|exact Hfiles].
Defined.

(** C8. When [vite.config.js] cannot be read in step 4 (it is missing or
    unreadable) and steps 1 to 3 succeeded, the failure is caught in
    step 4: a warning is logged, steps 5 and 6 still run, the terminal is
    closed and the run exits with code 0. *)
Theorem unreadable_config_is_not_fatal (w : world) (blanks : list delivery)
    (ans : jsstring) (late : list jsstring) (rest : list delivery)
    (s : state) (f1 f2 f3 : fsys) :
  stdin s = blanks ++ (ans, late) :: rest ->
  Forall (fun d : delivery => forallb is_space d.1 = true) blanks ->
  forallb is_space ans = false ->
  spawn w (scaffoldCommand (trim ans)) (scaffoldDir w) (fs s)
  = (f1, Some 0%Z) ->
  spawn w INSTALL (projectPathOf w (trim ans)) f1 = (f2, Some 0%Z) ->
  spawn w INSTALL_TAILWIND (projectPathOf w (trim ans)) f2
  = (f3, Some 0%Z) ->
  unreadableAt f3 (viteConfigPath (projectPathOf w (trim ans))) ->
  exists f' tail,
    cli w s
    = (Exit 0,
       State f' rest
         (trace s
          ++ ConsoleLog banner :: promptEvents (length blanks)
          ++ scaffolded w (trim ans)
          ++ installed (projectPathOf w (trim ans))
          ++ tailwindInstalled (projectPathOf w (trim ans))
          ++ configStarted (projectPathOf w (trim ans)) ++ configWarned
          ++ cssStarted (projectPathOf w (trim ans)) ++ tail
          ++ finished (trim ans) ++ [Close]))
    /\ (tail = cssDone \/ tail = cssWarned).
Proof.
  intros Hin Hblank Hans H1 H2 H3 Hread.
  destruct (prompt_nonblank_facts _ _ Hblank Hans) as [Hb Hn].
  rewrite cli_run, (createProject_named w blanks ans late rest) by done.
  unfold pipeline, bind.
  erewrite step1_ok by (cbn [fs]; exact H1). cbn [fs stdin trace].
  erewrite step2_ok by (cbn [fs]; exact H2). cbn [fs stdin trace].
  erewrite step3_ok by (cbn [fs]; exact H3). cbn [fs stdin trace].
  erewrite step4_read_fail by (cbn [fs]; exact Hread). cbn [fs stdin trace].
  match goal with
  | |- context [step5 ?p ?s5] =>
      destruct (step5_run p s5) as (f' & tail & -> & Htail)
  end.
  rewrite step6_run. unfold ret. cbn [fs stdin trace].
  exists f', tail. split.
  - rewrite <- ?app_assoc. reflexivity.
  - destruct Htail as [[-> _]|[-> _]]; auto.
Qed.

Lemma unreadable_config_is_not_fatal_witness :
  (cli noConfigWorld (initial emptyFs demoInput)).1 = Exit 0.
Proof.
  destruct (unreadable_config_is_not_fatal noConfigWorld
              [([], []); (lit "   ", [])]
              (lit " demo ") [] [] (initial emptyFs demoInput)
              emptyFs emptyFs emptyFs)
    as (f' & tail & Hcli & _).
  - reflexivity.
  - repeat constructor.
  - reflexivity.
  - reflexivity.
  - reflexivity.
  - reflexivity.
  - right. reflexivity.
  - rewrite Hcli. reflexivity.
Defined.

Lemma cssDone_not_cssWarned : cssDone <> cssWarned.
Proof. discriminate. Qed.

(** C5. When step 5 reports success, [src/index.css] and [src/App.css]
    under the project path both hold exactly [@import "tailwindcss";]
    and a line feed, whatever they held before: the files are replaced,
    not appended to. *)
Theorem step5_overwrites_css (p : jsstring) (s s' : state)
    (r : result unit) :
  step5 p s = (r, s') ->
  trace s' = trace s ++ cssStarted p ++ cssDone ->
  files (fs s') !! indexCssPath p = Some CSS_IMPORT
  /\ files (fs s') !! appCssPath p = Some CSS_IMPORT.
Proof.
  intros Hrun Htrace.
  destruct (step5_run p s) as (f' & tail & Hstep & Htail).
  rewrite Hstep in Hrun. injection Hrun as <- <-.
  cbn [trace fs] in *.
  apply app_inv_head in Htrace.
  apply (app_inv_head (cssStarted p)) in Htrace.
  destruct Htail as [[_ ->]|[-> _]].
  - unfold written. cbn [files]. split.
    + rewrite lookup_insert. case_decide; [done|].
      by rewrite lookup_insert_eq.
    + by rewrite lookup_insert_eq.
  - by destruct cssDone_not_cssWarned.
Qed.

Lemma step5_overwrites_css_witness :
  files (fs (step5 (lit "/p") (initial oldCssFs [])).2)
    !! lit "/p/src/index.css" = Some CSS_IMPORT
  /\ files (fs (step5 (lit "/p") (initial oldCssFs [])).2)
       !! lit "/p/src/App.css" = Some CSS_IMPORT.
Proof.
  apply (step5_overwrites_css (lit "/p") (initial oldCssFs [])
           (step5 (lit "/p") (initial oldCssFs [])).2
           (step5 (lit "/p") (initial oldCssFs [])).1).
  - by destruct (step5 (lit "/p") (initial oldCssFs [])).
  - vm_compute. reflexivity.
Defined.

(** ** The project path *)

Lemma normalize_absolute (p : jsstring) :
  Path.isAbsolute p = true -> Path.isAbsolute (Path.normalize p) = true.
Proof.
  intros H. unfold Path.normalize. destruct p as [|c p]; [done|].
  rewrite H. cbn [negb].
  destruct (Path.normalizeString (c :: p) false); [reflexivity|].
  destruct (Path.endsWithSlash (c :: p)); reflexivity.
Qed.

Lemma join_absolute (dir : jsstring) (args : list jsstring) :
  Path.isAbsolute dir = true ->
  Path.isAbsolute (Path.join (dir :: args)) = true.
Proof.
  intros H. destruct dir as [|c dir]; [done|].
  unfold Path.join. cbn [List.filter truthy].
  apply normalize_absolute.
  destruct (List.filter truthy args); exact H.
Qed.

(** X17. The project path is bound once and every later step uses that
    value: it is absolute when the working directory is, the commands of
    steps 2 and 3 run in it, the files read and written in steps 4 and 5
    lie under it, and it is what [createProject] returns. *)
Theorem projectPath_fixed (w : world) (name : jsstring) :
  Path.isAbsolute (cwd w) = true ->
  Path.isAbsolute (projectPathOf w name) = true
  /\ emitsOnly (usesPath (projectPathOf w name)) (pipeline w name)
  /\ forall s q s',
       pipeline w name s = (Ok q, s') -> q = projectPathOf w name.
Proof.
  intros Habs. split; [|split].
  - unfold projectPathOf. destruct (isGlobal w); by apply join_absolute.
  - apply emitsOnly_pipeline; simpl; auto.
  - intros s q s'. unfold pipeline, bind.
    destruct (step1 w name (projectPathOf w name) s) as [[[]|?|?|] s1];
      [|done..].
    destruct (step2 w (projectPathOf w name) s1) as [[[]|?|?|] s2];
      [|done..].
    destruct (step3 w (projectPathOf w name) s2) as [[[]|?|?|] s3];
      [|done..].
    destruct (step4 (projectPathOf w name) s3) as [[[]|?|?|] s4];
      [|done..].
    destruct (step5 (projectPathOf w name) s4) as [[[]|?|?|] s5];
      [|done..].
    destruct (step6 name s5) as [[[]|?|?|] s6]; [|done..].
    unfold ret. by intros [= <- _].
Qed.

Lemma projectPath_fixed_witness :
  Path.isAbsolute (projectPathOf moduleWorld (lit "demo")) = true
  /\ forall s q s',
       pipeline moduleWorld (lit "demo") s = (Ok q, s') ->
       q = lit "/home/u/work/demo".
Proof.
  destruct (projectPath_fixed moduleWorld (lit "demo")) as (Hm & _ & Hq);
    [reflexivity|].
  split; [exact Hm|].
  intros s q s' H. rewrite (Hq s q s' H). vm_compute. reflexivity.
Defined.

(** ** The terminal interface *)

Lemma createProject_never_closes (w : world) :
  emitsOnly (fun e => isClose e = false) (createProject w).
Proof. by apply emitsOnly_createProject. Qed.

(** Run as the main script, the interface is closed exactly once on
    every path that reaches [process.exit]. *)
Lemma cli_closes_once (w : world) (s s' : state) (code : Z) :
  cli w s = (Exit code, s') ->
  countClose (trace s') = countClose (trace s) + 1
  /\ (code = 0%Z \/ code = 1%Z).
Proof.
  rewrite cli_run.
  destruct (createProject_never_closes w s) as [Hne (t & Ht & Hclose)].
  destruct (createProject w s) as [[a|e|c|] s1]; simpl in *.
  - intros [= <- <-]. cbn [trace]. rewrite Ht, !countClose_app.
    rewrite (countClose_none t) by done.
    change (countClose [Close]) with 1. split; [lia|auto].
  - intros [= <- <-]. cbn [trace]. rewrite Ht, !countClose_app.
    rewrite (countClose_none t) by done.
    change (countClose (setupFailed e)) with 1. split; [lia|auto].
  - by destruct (Hne c).
  - done.
Qed.

(** C9, where the code departs from it.  When the module is loaded by
    another module and the exported [createProject] is called, the
    interface is created at load time and never closed, however the call
    ends; only the command-line branch closes it. *)
Theorem exported_createProject_never_closes (w : world) (s : state) :
  isGlobal w = true ->
  exists t,
    trace (requireAndCreate w s).2 = trace s ++ CreateInterface :: t
    /\ countClose (CreateInterface :: t) = 0.
Proof.
  intros Hg. unfold requireAndCreate, loadModule, bind at 1 2, emit.
  rewrite Hg. cbn [negb ret].
  destruct (createProject_never_closes w
              (State (fs s) (stdin s) (trace s ++ [CreateInterface])))
    as [_ (t & Ht & Hclose)].
  exists t. rewrite Ht. cbn [trace]. rewrite <- app_assoc.
  split; [reflexivity|].
  apply countClose_none. by constructor.
Qed.

Lemma exported_createProject_never_closes_witness :
  (requireAndCreate moduleWorld (initial emptyFs demoInput)).1
  = Ok (lit "/home/u/work/demo")
  /\ countOpen
       (trace (requireAndCreate moduleWorld (initial emptyFs demoInput)).2)
     = 1
  /\ countClose
       (trace (requireAndCreate moduleWorld (initial emptyFs demoInput)).2)
     = 0.
Proof.
  destruct (exported_createProject_never_closes moduleWorld
              (initial emptyFs demoInput)) as (t & Ht & Hc);
    [reflexivity|].
  split; [vm_compute; reflexivity|]. split; [vm_compute; reflexivity|].
  rewrite Ht. exact Hc.
Defined.

(** ** Step 4 writes back what it read *)

Lemma patchConfig_without_anchors (config : jsstring) :
  ~ occurs REACT_IMPORT config -> ~ hasPluginsArray config ->
  patchConfig config = config.
Proof.
  intros Hr Hp. unfold patchConfig.
  assert (Hi : addImport config = config).
  { destruct (addImport_cases config) as [| |pre post _ Hc _]; try done.
    destruct Hr. rewrite Hc. by exists pre, post. }
  rewrite Hi.
  destruct (addPlugin_cases config) as [| |u ws v _ Hc Hws _]; try done.
  destruct Hp. by exists u, ws, v.
Qed.

Lemma written_same (f : fsys) (p data : jsstring) :
  files f !! p = Some data -> written f p data = f.
Proof.
  intros H. destruct f as [fl ur uw]. unfold written. cbn [files] in *.
  by rewrite insert_id.
Qed.

(** C10, as stated, fails.  A [vite.config.js] with neither anchor that
    can be read but not written: step 4 calls [writeFile] with the text
    it read, the write is refused, the file keeps its text, and the step
    does not report success but logs the warning. *)
Lemma step4_read_only_config_warns :
  readable readOnlyConfigFs (viteConfigPath (lit "/p")) plainConfig
  /\ includes REACT_IMPORT plainConfig = false
  /\ searchPlugins plainConfig = None
  /\ patchConfig plainConfig = plainConfig
  /\ step4 (lit "/p") (initial readOnlyConfigFs [])
     = (Ok tt,
        State readOnlyConfigFs []
          (configStarted (lit "/p")
           ++ [WriteFile (viteConfigPath (lit "/p")) plainConfig]
           ++ configWarned))
  /\ configWarned
     = [SpinnerFail (lit "Couldn't auto-configure Vite");
        ConsoleLog viteConfigWarning].
Proof.
  split.
  { split; [by_eval|vm_compute; reflexivity]. }
  split; [vm_compute; reflexivity|]. split; [vm_compute; reflexivity|].
  split; [vm_compute; reflexivity|]. split; [|reflexivity].
  assert (Hread : readable (fs (initial readOnlyConfigFs []))
                    (viteConfigPath (lit "/p")) plainConfig).
  { split; [by_eval|vm_compute; reflexivity]. }
  rewrite (step4_write_fail _ _ _ Hread) by by_eval.
  vm_compute. reflexivity.
Qed.

(** C10, amended.  Whenever [vite.config.js] can be read, step 4 raises
    no error and calls [writeFile] with the patched text, also when both
    guards leave the text as it is.  When the write is accepted, the
    file then holds the patched text, no other file has changed, and the
    step reports success without a warning.  When the write is refused,
    the file system is as it was and the step logs the warning instead
    of the success.  In particular, for a text without the react import
    and without a [plugins:] array the text written is the text read,
    and an accepted write leaves the file system as it was. *)
Theorem step4_always_writes_back (p : jsstring) (s : state)
    (config : jsstring) :
  readable (fs s) (viteConfigPath p) config ->
  (viteConfigPath p ∉ unwritable (fs s) ->
   step4 p s
   = (Ok tt,
      State (written (fs s) (viteConfigPath p) (patchConfig config))
        (stdin s)
        (trace s ++ configStarted p
         ++ [WriteFile (viteConfigPath p) (patchConfig config);
             SpinnerSucceed (lit "Updating vite.config.js");
             ConsoleLog (successLine (lit "Vite configured for Tailwind"))]))
   /\ files (fs (step4 p s).2) !! viteConfigPath p
      = Some (patchConfig config)
   /\ forall q, q <> viteConfigPath p ->
        files (fs (step4 p s).2) !! q = files (fs s) !! q)
  /\ (viteConfigPath p ∈ unwritable (fs s) ->
      step4 p s
      = (Ok tt,
         State (fs s) (stdin s)
           (trace s ++ configStarted p
            ++ [WriteFile (viteConfigPath p) (patchConfig config);
                SpinnerFail (lit "Couldn't auto-configure Vite");
                ConsoleLog viteConfigWarning])))
  /\ (~ occurs REACT_IMPORT config -> ~ hasPluginsArray config ->
      patchConfig config = config
      /\ written (fs s) (viteConfigPath p) (patchConfig config) = fs s).
Proof.
  intros Hread. split; [|split].
  - intros Hw. rewrite (step4_ok p s config) by done.
    split; [reflexivity|]. cbn [snd fs written files]. split.
    + by rewrite lookup_insert_eq.
    + intros q Hq. by rewrite lookup_insert_ne.
  - intros Hw. by rewrite (step4_write_fail p s config).
  - intros Hr Hp. pose proof (patchConfig_without_anchors _ Hr Hp) as Hid.
    split; [done|]. rewrite Hid. apply written_same. by destruct Hread.
Qed.

Lemma step4_always_writes_back_witness :
  step4 (lit "/p") (initial plainFs [])
  = (Ok tt,
     State plainFs []
       (configStarted (lit "/p") ++ configWritten (lit "/p") plainConfig))
  /\ files (fs (step4 (lit "/p") (initial plainFs [])).2)
     !! lit "/p/vite.config.js" = Some plainConfig.
Proof.
  assert (Hread : readable plainFs (viteConfigPath (lit "/p")) plainConfig).
  { split; [vm_compute; intros H; inversion H|vm_compute; reflexivity]. }
  destruct (step4_always_writes_back (lit "/p") (initial plainFs [])
              plainConfig Hread) as (Hok & _ & Hplain).
  destruct Hok as (Hstep & Hfile & _).
  { vm_compute. intros H. inversion H. }
  destruct Hplain as [Hid Hfs].
  - intros H%includes_true. vm_compute in H. discriminate.
  - intros H. apply searchPlugins_None in H; [exact H|].
    vm_compute. reflexivity.
  - split.
    + rewrite Hstep. cbn [fs initial] in Hfs |- *. rewrite Hfs, Hid.
      reflexivity.
    + rewrite Hid in Hfile. exact Hfile.
Defined.

(** * Further properties of the script *)

Import Path.

(** ** The files the script touches *)

Lemma split_aux_app_sep (sep : N) (cur x y : jsstring) :
  split_aux sep cur (x ++ sep :: y)
  = split_aux sep cur x ++ split_aux sep [] y.
Proof.
  revert cur. induction x as [|c x IH]; intros cur; simpl.
  - by rewrite N.eqb_refl.
  - destruct (c =? sep)%N; simpl; by rewrite IH.
Qed.

Lemma split_aux_nosep (sep : N) (cur seg : jsstring) :
  sep ∉ seg -> split_aux sep cur seg = [reverse cur ++ seg].
Proof.
  revert cur. induction seg as [|c seg IH]; intros cur Hsep; simpl.
  - by rewrite app_nil_r.
  - apply not_elem_of_cons in Hsep as [Hne Hsep].
    destruct (c =? sep)%N eqn:E; [by apply N.eqb_eq in E|].
    rewrite IH by done. by rewrite reverse_cons, <- app_assoc.
Qed.

Lemma joinWith_snoc (sep : jsstring) (l : list jsstring) (seg : jsstring) :
  joinWith sep (l ++ [seg])
  = match l with [] => seg | _ :: _ => joinWith sep l ++ sep ++ seg end.
Proof.
  induction l as [|x l IH]; [done|].
  destruct l as [|y l]; [done|].
  change (joinWith sep ((x :: y :: l) ++ [seg]))
    with (x ++ sep ++ joinWith sep ((y :: l) ++ [seg])).
  rewrite IH.
  change (joinWith sep (x :: y :: l)) with (x ++ sep ++ joinWith sep (y :: l)).
  by rewrite <- !app_assoc.
Qed.

(** A path joined from arguments whose last one is an ordinary file name
    ends with that name. *)
Lemma join_last_segment (args : list jsstring) (seg : jsstring) :
  seg <> [] -> SLASH ∉ seg -> seg <> lit "." -> seg <> lit ".." ->
  exists pre, Path.join (args ++ [seg]) = pre ++ seg.
Proof.
  intros Hne Hslash Hdot Hdots. unfold Path.join.
  rewrite List.filter_app. cbn [List.filter].
  assert (Ht : truthy seg = true) by (by destruct seg). rewrite Ht.
  set (l := List.filter truthy args).
  assert (Hj : exists x, joinWith [SLASH] (l ++ [seg]) = x ++ seg
                         /\ (x = [] \/ exists y, x = y ++ [SLASH])).
  { rewrite joinWith_snoc. destruct l as [|a l'].
    - exists []. auto.
    - exists (joinWith [SLASH] (a :: l') ++ [SLASH]).
      split; [by rewrite <- app_assoc|]. right. by eexists. }
  destruct Hj as (x & Hj & Hx).
  assert (Hl : l ++ [seg] <> []) by (by destruct l).
  destruct (l ++ [seg]) as [|a0 l0] eqn:El; [done|]. rewrite Hj.
  assert (Hsplit : exists segs, split SLASH (x ++ seg) = segs ++ [seg]).
  { unfold split. destruct Hx as [->|[y ->]].
    - exists []. by rewrite split_aux_nosep.
    - exists (split_aux SLASH [] y). rewrite <- app_assoc.
      change ([SLASH] ++ seg) with (SLASH :: seg).
      rewrite split_aux_app_sep.
      by rewrite (split_aux_nosep SLASH [] seg). }
  destruct Hsplit as (segs & Hsplit).
  assert (Hres : forall b, exists pre,
             normalizeString (x ++ seg) b = pre ++ seg).
  { intros b. unfold normalizeString. rewrite Hsplit, fold_left_app.
    cbn [fold_left]. unfold pushSegment at 1.
    rewrite !bool_decide_eq_false_2 by done. cbn [orb].
    rewrite reverse_cons, joinWith_snoc.
    destruct (reverse _); [by exists []|]. eexists.
    by rewrite app_assoc. }
  assert (Hend : endsWithSlash (x ++ seg) = false).
  { unfold endsWithSlash. rewrite last_app.
    destruct (last seg) as [c|] eqn:Elast.
    - destruct (c =? SLASH)%N eqn:Ec; [|done].
      apply N.eqb_eq in Ec as ->. destruct Hslash.
      by apply last_Some_elem_of.
    - by apply last_None in Elast. }
  unfold normalize. destruct (x ++ seg) as [|c0 r0] eqn:Exs.
  { by destruct x, seg. }
  rewrite Hend.
  destruct (Hres (negb (isAbsolute (c0 :: r0)))) as (pre & ->).
  destruct (pre ++ seg) as [|c1 r1] eqn:Eps; [by destruct pre, seg|].
  rewrite <- Eps.
  destruct (isAbsolute (c0 :: r0)); [by exists (SLASH :: pre)|by exists pre].
Qed.

Lemma viteConfigPath_suffix (p : jsstring) :
  exists pre, viteConfigPath p = pre ++ lit "vite.config.js".
Proof. apply (join_last_segment [p]); by_eval. Qed.

Lemma indexCssPath_suffix (p : jsstring) :
  exists pre, indexCssPath p = pre ++ lit "index.css".
Proof. apply (join_last_segment [p; lit "src"]); by_eval. Qed.

Lemma appCssPath_suffix (p : jsstring) :
  exists pre, appCssPath p = pre ++ lit "App.css".
Proof. apply (join_last_segment [p; lit "src"]); by_eval. Qed.

Lemma suffix_clash (pre1 pre2 a b : jsstring) :
  (forall r1 r2, reverse a ++ r1 <> reverse b ++ r2) ->
  pre1 ++ a <> pre2 ++ b.
Proof.
  intros Hab H. apply (f_equal reverse) in H.
  rewrite !reverse_app in H. by apply Hab in H.
Qed.

(** For every project path the three files of steps 4 and 5 are three
    different paths. *)
Lemma target_paths_distinct (p : jsstring) :
  viteConfigPath p <> indexCssPath p
  /\ viteConfigPath p <> appCssPath p
  /\ indexCssPath p <> appCssPath p.
Proof.
  destruct (viteConfigPath_suffix p) as (v & ->).
  destruct (indexCssPath_suffix p) as (i & ->).
  destruct (appCssPath_suffix p) as (a & ->).
  repeat split; apply suffix_clash; intros r1 r2 H; vm_compute in H;
    discriminate H.
Qed.

(** *** Where the project is generated and where the script goes on *)

Lemma split_aux_no_sep (sep : N) (cur s : jsstring) :
  sep ∉ cur -> Forall (fun seg => sep ∉ seg) (split_aux sep cur s).
Proof.
  revert cur. induction s as [|c s IH]; intros cur Hcur; simpl.
  - constructor; [|done]. by rewrite elem_of_reverse.
  - destruct (c =? sep)%N eqn:E.
    + constructor; [by rewrite elem_of_reverse|]. apply IH.
      by apply not_elem_of_nil.
    + apply IH. apply N.eqb_neq in E.
      apply not_elem_of_cons. split; [done|done].
Qed.

Lemma pushSegment_kept (st : list jsstring) (seg : jsstring) :
  Forall keptSegment st -> SLASH ∉ seg ->
  Forall keptSegment (pushSegment false st seg).
Proof.
  intros Hst Hseg. unfold pushSegment.
  destruct (bool_decide (seg = [])) eqn:E1; [done|].
  destruct (bool_decide (seg = lit ".")) eqn:E2; [done|].
  cbn [orb]. apply bool_decide_eq_false in E1, E2.
  destruct (bool_decide (seg = lit "..")) eqn:E3.
  - destruct st as [|top st']; [done|].
    destruct (bool_decide (top = lit "..")); [done|].
    by apply Forall_cons in Hst as [_ Hst].
  - apply bool_decide_eq_false in E3. constructor; [|done].
    by repeat split.
Qed.

Lemma fold_pushSegment_kept (segs st : list jsstring) :
  Forall keptSegment st -> Forall (fun seg => SLASH ∉ seg) segs ->
  Forall keptSegment (fold_left (pushSegment false) segs st).
Proof.
  revert st. induction segs as [|seg segs IH]; intros st Hst Hsegs; [done|].
  apply Forall_cons in Hsegs as [Hseg Hsegs]. simpl.
  apply IH; [|done]. by apply pushSegment_kept.
Qed.

Lemma fold_pushSegment_of_kept (l st : list jsstring) :
  Forall keptSegment l ->
  fold_left (pushSegment false) l st = reverse l ++ st.
Proof.
  revert st. induction l as [|seg l IH]; intros st Hl; [done|].
  apply Forall_cons in Hl as [(H1 & H2 & H3 & _) Hl]. simpl.
  rewrite IH by done. unfold pushSegment.
  rewrite !bool_decide_eq_false_2 by done. cbn [orb].
  by rewrite reverse_cons, <- app_assoc.
Qed.

Lemma split_joinWith (l : list jsstring) :
  l <> [] -> Forall (fun seg => SLASH ∉ seg) l ->
  split SLASH (joinWith [SLASH] l) = l.
Proof.
  intros Hne Hl. unfold split. induction l as [|x l IH]; [done|].
  apply Forall_cons in Hl as [Hx Hl]. destruct l as [|y l].
  - simpl. by rewrite split_aux_nosep.
  - change (joinWith [SLASH] (x :: y :: l))
      with (x ++ SLASH :: joinWith [SLASH] (y :: l)).
    rewrite split_aux_app_sep, IH by done.
    by rewrite split_aux_nosep.
Qed.

Lemma normalize_abs (p : jsstring) :
  isAbsolute p = true ->
  normalize p
  = SLASH :: match joinWith [SLASH] (reverse (stackOf p)) with
             | [] => []
             | c :: r => if endsWithSlash p then (c :: r) ++ [SLASH]
                         else c :: r
             end.
Proof.
  intros H. unfold normalize. destruct p as [|c p]; [done|].
  rewrite H. cbn [negb]. unfold normalizeString. fold (stackOf (c :: p)).
  by destruct (joinWith [SLASH] (reverse (stackOf (c :: p)))).
Qed.

Lemma stackOf_kept (p : jsstring) : Forall keptSegment (stackOf p).
Proof.
  unfold stackOf. apply fold_pushSegment_kept; [done|].
  apply split_aux_no_sep, not_elem_of_nil.
Qed.

Lemma joinWith_nil (l : list jsstring) :
  Forall keptSegment l -> joinWith [SLASH] l = [] -> l = [].
Proof.
  destruct l as [|x [|y l]]; [done| |].
  - intros [(H & _) _]%Forall_cons. simpl. by intros ->.
  - intros [(H & _) _]%Forall_cons.
    change (joinWith [SLASH] (x :: y :: l))
      with (x ++ SLASH :: joinWith [SLASH] (y :: l)).
    by destruct x.
Qed.

(** Normalising an absolute path without a final slash and then
    appending gives the same stack as appending right away. *)
Lemma stackOf_normalize (p rest : jsstring) :
  isAbsolute p = true -> endsWithSlash p = false ->
  stackOf (normalize p ++ SLASH :: rest) = stackOf (p ++ SLASH :: rest).
Proof.
  intros Habs Hend. unfold stackOf. unfold split.
  rewrite !split_aux_app_sep, !fold_left_app. f_equal.
  rewrite normalize_abs, Hend by done.
  pose proof (stackOf_kept p) as Hk. fold (split SLASH p).
  fold (stackOf p).
  destruct (joinWith [SLASH] (reverse (stackOf p))) as [|c r] eqn:Ej.
  - apply joinWith_nil in Ej; [|by apply Forall_reverse].
    apply (f_equal reverse) in Ej. rewrite reverse_involutive in Ej.
    rewrite Ej. reflexivity.
  - rewrite <- Ej.
    change (split_aux SLASH [] (SLASH :: ?x)) with ([] :: split SLASH x).
    rewrite split_joinWith.
    + cbn [fold_left]. change (pushSegment false [] []) with (@nil jsstring).
      rewrite fold_pushSegment_of_kept by (by apply Forall_reverse).
      by rewrite reverse_involutive, app_nil_r.
    + intros E. by rewrite E in Ej.
    + apply Forall_reverse. eapply Forall_impl; [exact Hk|].
      by intros x (_ & _ & _ & H).
Qed.

(** X15. The directory in which step 1 has the project generated, joined
    with the project name, is the project path in which the later steps
    work: the script installs into and patches the project it has just
    had generated, also when it runs as the main script. *)
Theorem projectPath_is_scaffold_target (w : world) (name : jsstring) :
  isAbsolute (cwd w) = true -> name <> [] ->
  projectPathOf w name = Path.join [scaffoldDir w; name].
Proof.
  intros Habs Hname. unfold projectPathOf, scaffoldDir.
  destruct (isGlobal w); [done|].
  destruct (cwd w) as [|c0 dir] eqn:Ecwd; [done|].
  destruct name as [|n0 name]; [done|].
  assert (Hjoin : Path.join [c0 :: dir; lit ".."]
                  = normalize ((c0 :: dir) ++ SLASH :: lit "..")) by done.
  assert (Habs1 : isAbsolute ((c0 :: dir) ++ SLASH :: lit "..") = true)
    by done.
  assert (Hend1 : endsWithSlash ((c0 :: dir) ++ SLASH :: lit "..") = false).
  { unfold endsWithSlash.
    change (SLASH :: lit "..") with ([SLASH; 46%N] ++ [46%N]).
    by rewrite app_assoc, last_snoc. }
  assert (Habs2 : isAbsolute (Path.join [c0 :: dir; lit ".."]) = true).
  { rewrite Hjoin. by apply normalize_absolute. }
  assert (Hne2 : truthy (Path.join [c0 :: dir; lit ".."]) = true).
  { by destruct (Path.join [c0 :: dir; lit ".."]). }
  unfold Path.join at 2. cbn [List.filter truthy]. rewrite Hne2.
  change (joinWith [SLASH] [Path.join [c0 :: dir; lit ".."]; n0 :: name])
    with (Path.join [c0 :: dir; lit ".."] ++ SLASH :: n0 :: name).
  assert (H3 : Path.join [c0 :: dir; lit ".."; n0 :: name]
               = normalize
                   (((c0 :: dir) ++ SLASH :: lit "..")
                    ++ SLASH :: n0 :: name)).
  { unfold Path.join. cbn [List.filter truthy joinWith].
    f_equal. rewrite <- app_assoc. reflexivity. }
  rewrite H3.
  rewrite (normalize_abs (_ ++ SLASH :: n0 :: name)) by done.
  rewrite (normalize_abs (Path.join _ ++ SLASH :: n0 :: name)).
  2:{ by destruct (Path.join [c0 :: dir; lit ".."]). }
  rewrite Hjoin, stackOf_normalize by done.
  assert (Hlast : forall x : jsstring,
             endsWithSlash (x ++ SLASH :: n0 :: name)
             = endsWithSlash (n0 :: name)).
  { intros x. unfold endsWithSlash.
    change (SLASH :: n0 :: name) with ([SLASH] ++ n0 :: name).
    rewrite !last_app.
    destruct (last (n0 :: name)) eqn:E; [done|].
    by apply last_None in E. }
  by rewrite !Hlast.
Qed.

Lemma projectPath_is_scaffold_target_witness :
  scaffoldDir cliWorld = lit "/home/u"
  /\ projectPathOf cliWorld (lit "demo")
     = Path.join [lit "/home/u"; lit "demo"].
Proof.
  split; [vm_compute; reflexivity|].
  rewrite (projectPath_is_scaffold_target cliWorld (lit "demo"));
    [|reflexivity|discriminate].
  vm_compute. reflexivity.
Defined.

(** *** Where a command-line run works *)

Lemma stackOf_app (x y : jsstring) :
  stackOf (x ++ SLASH :: y)
  = fold_left (pushSegment false) (split SLASH y) (stackOf x).
Proof.
  unfold stackOf, split. by rewrite split_aux_app_sep, fold_left_app.
Qed.

Lemma stackOf_app_kept (x seg : jsstring) :
  keptSegment seg -> stackOf (x ++ SLASH :: seg) = seg :: stackOf x.
Proof.
  intros Hk. rewrite stackOf_app. unfold split.
  destruct Hk as (H1 & H2 & H3 & H4).
  rewrite (split_aux_nosep SLASH [] seg) by done. simpl.
  unfold pushSegment. by rewrite !bool_decide_eq_false_2 by done.
Qed.

Lemma stackOf_app_parent (x : jsstring) :
  stackOf (x ++ SLASH :: lit "..") = tail (stackOf x).
Proof.
  rewrite stackOf_app.
  change (split SLASH (lit "..")) with [lit ".."]. simpl.
  pose proof (stackOf_kept x) as Hk.
  destruct (stackOf x) as [|top st]; [done|].
  apply Forall_cons in Hk as [(_ & _ & H3 & _) _].
  unfold pushSegment. simpl.
  by rewrite (bool_decide_eq_false_2 _ H3).
Qed.

Lemma endsWithSlash_kept (x seg : jsstring) :
  keptSegment seg -> endsWithSlash (x ++ SLASH :: seg) = false.
Proof.
  intros (H1 & _ & _ & H4). unfold endsWithSlash.
  change (SLASH :: seg) with ([SLASH] ++ seg). rewrite !last_app.
  destruct (last seg) as [c|] eqn:E.
  - destruct (N.eqb_spec c SLASH) as [->|]; [|done].
    destruct H4. apply last_Some in E as [l ->].
    apply elem_of_app. right. by left.
  - by apply last_None in E.
Qed.

Lemma joinWith_kept_inj (l1 l2 : list jsstring) :
  Forall keptSegment l1 -> Forall keptSegment l2 ->
  l1 <> [] -> l2 <> [] ->
  joinWith [SLASH] l1 = joinWith [SLASH] l2 -> l1 = l2.
Proof.
  intros H1 H2 N1 N2 E.
  rewrite <- (split_joinWith l1), <- (split_joinWith l2), E; try done.
  - eapply Forall_impl; [exact H2|]. by intros x (_ & _ & _ & H).
  - eapply Forall_impl; [exact H1|]. by intros x (_ & _ & _ & H).
Qed.

Lemma normalize_kept (p : jsstring) :
  isAbsolute p = true -> endsWithSlash p = false -> stackOf p <> [] ->
  normalize p = SLASH :: joinWith [SLASH] (reverse (stackOf p)).
Proof.
  intros Ha He Hs. rewrite normalize_abs, He by done.
  destruct (joinWith [SLASH] (reverse (stackOf p))) eqn:E; [|done].
  apply joinWith_nil in E; [|apply Forall_reverse, stackOf_kept].
  destruct Hs. apply (f_equal reverse) in E.
  by rewrite reverse_involutive in E.
Qed.

Lemma join_parent (dir name : jsstring) :
  isAbsolute dir = true -> keptSegment name ->
  Path.join [dir; lit ".."; name]
  = SLASH :: joinWith [SLASH] (reverse (name :: tail (stackOf dir))).
Proof.
  intros Ha Hk. destruct dir as [|c0 dir]; [done|].
  assert (Hn : name <> []) by apply Hk.
  destruct name as [|n0 name]; [done|].
  assert (H3 : Path.join [c0 :: dir; lit ".."; n0 :: name]
               = normalize
                   (((c0 :: dir) ++ SLASH :: lit "..")
                    ++ SLASH :: n0 :: name)).
  { unfold Path.join. cbn [List.filter truthy joinWith].
    f_equal. rewrite <- app_assoc. reflexivity. }
  rewrite H3, normalize_kept.
  - by rewrite stackOf_app_kept, stackOf_app_parent.
  - done.
  - by apply endsWithSlash_kept.
  - by rewrite stackOf_app_kept.
Qed.

Lemma join_child (dir name : jsstring) :
  isAbsolute dir = true -> keptSegment name ->
  Path.join [dir; name]
  = SLASH :: joinWith [SLASH] (reverse (name :: stackOf dir)).
Proof.
  intros Ha Hk. destruct dir as [|c0 dir]; [done|].
  assert (Hn : name <> []) by apply Hk.
  destruct name as [|n0 name]; [done|].
  assert (H3 : Path.join [c0 :: dir; n0 :: name]
               = normalize ((c0 :: dir) ++ SLASH :: n0 :: name)) by done.
  rewrite H3, normalize_kept.
  - by rewrite stackOf_app_kept.
  - done.
  - by apply endsWithSlash_kept.
  - by rewrite stackOf_app_kept.
Qed.

(** Below the root, the parent directory joined with a name is not the
    directory itself joined with that name. *)
Lemma join_parent_ne (dir name : jsstring) :
  isAbsolute dir = true -> stackOf dir <> [] -> keptSegment name ->
  Path.join [dir; lit ".."; name] <> Path.join [dir; name].
Proof.
  intros Ha Hs Hk. rewrite join_parent, join_child by done.
  intros [= E]. apply joinWith_kept_inj in E.
  - apply (f_equal length) in E. rewrite !length_reverse in E.
    destruct (stackOf dir); [done|]. simpl in E. lia.
  - apply Forall_reverse. constructor; [done|].
    pose proof (stackOf_kept dir) as H. destruct (stackOf dir); [done|].
    by apply Forall_cons in H as [_ H].
  - apply Forall_reverse. constructor; [done|]. apply stackOf_kept.
  - intros E'. apply (f_equal length) in E'.
    rewrite length_reverse in E'. done.
  - intros E'. apply (f_equal length) in E'.
    rewrite length_reverse in E'. done.
Qed.

(** C7. The command-line run takes place exactly when the script is the
    main module, and then [isGlobal] is false: loaded by another module
    the script only creates the interface and exports [createProject].
    So in every command-line run the project path is the working
    directory joined with [..] and the project name, which below the
    root directory is not the working directory joined with the name;
    step 1 runs in the parent of the working directory, and every
    command of steps 2 and 3 and every file of steps 4 and 5 is in a
    project directory next to the working directory, not in it. *)
Theorem command_line_run_leaves_cwd (w : world) (s : state)
    (name : jsstring) :
  isAbsolute (cwd w) = true -> stackOf (cwd w) <> [] ->
  keptSegment name ->
  if isGlobal w
  then loadModule w s
       = (Ok tt, State (fs s) (stdin s) (trace s ++ [CreateInterface]))
  else loadModule w s
       = cli w (State (fs s) (stdin s) (trace s ++ [CreateInterface]))
       /\ projectPathOf w name = Path.join [cwd w; lit ".."; name]
       /\ projectPathOf w name <> Path.join [cwd w; name]
       /\ exists t,
            trace (loadModule w s).2 = trace s ++ t
            /\ Forall (besideCwd w) t.
Proof.
  intros Habs Hroot Hname. unfold loadModule, bind at 1, emit.
  destruct (isGlobal w) eqn:Eg; [reflexivity|]. cbn [negb].
  split; [reflexivity|].
  assert (Hp : forall n, projectPathOf w n = Path.join [cwd w; lit ".."; n]).
  { intros n. unfold projectPathOf. by rewrite Eg. }
  assert (Hd : scaffoldDir w = Path.join [cwd w; lit ".."]).
  { unfold scaffoldDir. by rewrite Eg. }
  split; [apply Hp|]. split; [rewrite Hp; by apply join_parent_ne|].
  unfold bind. rewrite cli_run.
  destruct (emitsOnly_createProject_in (besideCwd w) w) with
    (s := State (fs s) (stdin s) (trace s ++ [CreateInterface]))
    as [_ (t & Ht & HP)]; try done.
  - intros n c. exists n. apply Hp.
  - intros n. exists n. by rewrite Hp.
  - intros n d. exists n. left. by rewrite Hp.
  - intros n d. exists n. right. left. by rewrite Hp.
  - intros n d. exists n. right. right. by rewrite Hp.
  - destruct (createProject w _) as [[q|e|c|] s1];
      cbn [snd trace] in Ht |- *.
    + exists ([CreateInterface] ++ t ++ [Close]).
      rewrite Ht, <- !app_assoc. split; [done|].
      rewrite !Forall_app. by repeat constructor.
    + exists ([CreateInterface] ++ t ++ setupFailed e).
      rewrite Ht, <- !app_assoc. split; [done|].
      rewrite !Forall_app. by repeat constructor.
    + exists ([CreateInterface] ++ t).
      rewrite Ht, <- !app_assoc. split; [done|].
      rewrite !Forall_app. by repeat constructor.
    + exists ([CreateInterface] ++ t).
      rewrite Ht, <- !app_assoc. split; [done|].
      rewrite !Forall_app. by repeat constructor.
Qed.

(** Started in [/home/u/work] with the name [demo], the run works in
    [/home/u/demo]; the claim's path is [/home/u/work/demo]. *)
Lemma command_line_run_leaves_cwd_witness :
  projectPathOf cliWorld (lit "demo") = lit "/home/u/demo"
  /\ Path.join [cwd cliWorld; lit "demo"] = lit "/home/u/work/demo"
  /\ (createProject cliWorld (initial emptyFs demoInput)).1
     = Ok (lit "/home/u/demo")
  /\ Exec INSTALL (lit "/home/u/demo")
     ∈ trace (loadModule cliWorld (initial emptyFs demoInput)).2
  /\ exists t,
       trace (loadModule cliWorld (initial emptyFs demoInput)).2 = t
       /\ Forall (besideCwd cliWorld) t.
Proof.
  pose proof (command_line_run_leaves_cwd cliWorld
                (initial emptyFs demoInput) (lit "demo")) as H.
  cbv beta iota delta [cliWorld isGlobal] in H. fold cliWorld in H.
  destruct H as (_ & Hp & _ & t & Ht & HP).
  - reflexivity.
  - vm_compute. discriminate.
  - unfold keptSegment. split; [|split; [|split]]; by_eval.
  - split; [rewrite Hp; vm_compute; reflexivity|].
    split; [vm_compute; reflexivity|]. split; [vm_compute; reflexivity|].
    split; [|exists t; split; [exact Ht|exact HP]].
    apply list_elem_of_In. vm_compute.
    repeat (first [left; reflexivity | right]).
Defined.

(** ** Further properties of the run *)

Lemma step1_fail (w : world) (name : jsstring) (s : state) (f1 : fsys)
    (code : option Z) :
  spawn w (scaffoldCommand name) (scaffoldDir w) (fs s) = (f1, code) ->
  code <> Some 0%Z ->
  step1 w name (projectPathOf w name) s
  = (Throw (ExecSyncFailed code),
     State f1 (stdin s) (trace s ++ scaffoldFailed w name)).
Proof.
  intros H Hcode. unfold step1. unfold_run. rewrite H.
  rewrite bool_decide_eq_false_2 by done. finish_run.
Qed.

Lemma step3_fail (w : world) (p : jsstring) (s : state) (f3 : fsys)
    (code : option Z) :
  spawn w INSTALL_TAILWIND p (fs s) = (f3, code) -> code <> Some 0%Z ->
  step3 w p s
  = (Throw (CommandFailed code),
     State f3 (stdin s) (trace s ++ tailwindFailed p)).
Proof.
  intros H Hcode. unfold step3. unfold_run. rewrite H.
  rewrite bool_decide_eq_false_2 by done. finish_run.
Qed.

Lemma step5_ok (p : jsstring) (s : state) :
  indexCssPath p ∉ unwritable (fs s) ->
  appCssPath p ∉ unwritable (fs s) ->
  step5 p s
  = (Ok tt,
     State (written (written (fs s) (indexCssPath p) CSS_IMPORT)
              (appCssPath p) CSS_IMPORT)
       (stdin s) (trace s ++ cssStarted p ++ cssDone)).
Proof.
  intros H1 H2. unfold step5. unfold_run.
  rewrite (bool_decide_eq_false_2 _ H1). cbn [fs stdin trace unwritable].
  rewrite (bool_decide_eq_false_2 _ H2). finish_run.
Qed.

(** Step 4 always ends normally and leaves the input alone. *)
Lemma step4_total (p : jsstring) (s : state) :
  exists f' t,
    step4 p s = (Ok tt, State f' (stdin s) (trace s ++ configStarted p ++ t)).
Proof.
  destruct (decide (viteConfigPath p ∈ unreadable (fs s))) as [Hu|Hu].
  { rewrite step4_read_fail by (by left). by eexists _, _. }
  destruct (files (fs s) !! viteConfigPath p) as [config|] eqn:Hl.
  2:{ rewrite step4_read_fail by (by right). by eexists _, _. }
  destruct (decide (viteConfigPath p ∈ unwritable (fs s))) as [Hw|Hw].
  - rewrite (step4_write_fail p s config) by done. by eexists _, _.
  - rewrite (step4_ok p s config) by done. by eexists _, _.
Qed.

(** X1. When the generator of step 1 does not exit with code 0, the run
    prints its failure messages, closes the terminal and exits with code
    1; no dependency is installed and no file is read or written. *)
Theorem scaffold_failure_is_fatal (w : world) (blanks : list delivery)
    (ans : jsstring) (late : list jsstring) (rest : list delivery)
    (s : state) (f1 : fsys)
    (code : option Z) :
  stdin s = blanks ++ (ans, late) :: rest ->
  Forall (fun d : delivery => forallb is_space d.1 = true) blanks ->
  forallb is_space ans = false ->
  spawn w (scaffoldCommand (trim ans)) (scaffoldDir w) (fs s) = (f1, code) ->
  code <> Some 0%Z ->
  exists t,
    t = ConsoleLog banner :: promptEvents (length blanks)
        ++ scaffoldFailed w (trim ans)
        ++ setupFailed (ExecSyncFailed code)
    /\ cli w s = (Exit 1, State f1 rest (trace s ++ t))
    /\ Forall (fun e => isFileAccess e = false
                        /\ forall c d, e <> Exec c d) t.
Proof.
  intros Hin Hblank Hans H1 Hcode.
  destruct (prompt_nonblank_facts _ _ Hblank Hans) as [Hb Hn].
  eexists. split; [reflexivity|]. split.
  - rewrite cli_run, (createProject_named w blanks ans late rest) by done.
    unfold pipeline, bind.
    erewrite step1_fail by (cbn [fs]; done).
    cbn [fs stdin trace]. rewrite <- ?app_assoc. reflexivity.
  - constructor; [done|]. rewrite !Forall_app. split; [|split].
    + by apply promptEvents_Forall.
    + repeat constructor; done.
    + repeat constructor; done.
Qed.

Lemma scaffold_failure_is_fatal_witness :
  (cli scaffoldFailWorld (initial emptyFs demoInput)).1 = Exit 1.
Proof.
  destruct (scaffold_failure_is_fatal scaffoldFailWorld
              [([], []); (lit "   ", [])]
              (lit " demo ") [] [] (initial emptyFs demoInput) emptyFs
              (Some 1%Z))
    as (t & _ & Hcli & _).
  - reflexivity.
  - repeat constructor.
  - reflexivity.
  - reflexivity.
  - discriminate.
  - rewrite Hcli. reflexivity.
Defined.

(** X2. When the installation of Tailwind (step 3) does not exit with
    code 0, after steps 1 and 2 succeeded, the run prints its failure
    messages, closes the terminal and exits with code 1; no file is read
    or written by the script. *)
Theorem tailwind_failure_is_fatal (w : world) (blanks : list delivery)
    (ans : jsstring) (late : list jsstring) (rest : list delivery)
    (s : state) (f1 f2 f3 : fsys)
    (code : option Z) :
  stdin s = blanks ++ (ans, late) :: rest ->
  Forall (fun d : delivery => forallb is_space d.1 = true) blanks ->
  forallb is_space ans = false ->
  spawn w (scaffoldCommand (trim ans)) (scaffoldDir w) (fs s)
  = (f1, Some 0%Z) ->
  spawn w INSTALL (projectPathOf w (trim ans)) f1 = (f2, Some 0%Z) ->
  spawn w INSTALL_TAILWIND (projectPathOf w (trim ans)) f2 = (f3, code) ->
  code <> Some 0%Z ->
  exists t,
    t = ConsoleLog banner :: promptEvents (length blanks)
        ++ scaffolded w (trim ans)
        ++ installed (projectPathOf w (trim ans))
        ++ tailwindFailed (projectPathOf w (trim ans))
        ++ setupFailed (CommandFailed code)
    /\ cli w s = (Exit 1, State f3 rest (trace s ++ t))
    /\ Forall (fun e => isFileAccess e = false) t.
Proof.
  intros Hin Hblank Hans H1 H2 H3 Hcode.
  destruct (prompt_nonblank_facts _ _ Hblank Hans) as [Hb Hn].
  eexists. split; [reflexivity|]. split.
  - rewrite cli_run, (createProject_named w blanks ans late rest) by done.
    unfold pipeline, bind.
    erewrite step1_ok by (cbn [fs]; exact H1). cbn [fs stdin trace].
    erewrite step2_ok by (cbn [fs]; exact H2). cbn [fs stdin trace].
    erewrite step3_fail by (cbn [fs]; done).
    cbn [fs stdin trace]. rewrite <- ?app_assoc. reflexivity.
  - constructor; [done|]. rewrite !Forall_app. repeat split.
    + by apply promptEvents_Forall.
    + repeat constructor.
    + repeat constructor.
    + repeat constructor.
    + repeat constructor.
Qed.

Lemma tailwind_failure_is_fatal_witness :
  (cli tailwindKilledWorld (initial emptyFs demoInput)).1 = Exit 1.
Proof.
  destruct (tailwind_failure_is_fatal tailwindKilledWorld
              [([], []); (lit "   ", [])]
              (lit " demo ") [] [] (initial emptyFs demoInput)
              (spawnOk (scaffoldCommand (lit "demo")) (lit "/home/u")
                 emptyFs).1
              (spawnOk (scaffoldCommand (lit "demo")) (lit "/home/u")
                 emptyFs).1
              (spawnOk (scaffoldCommand (lit "demo")) (lit "/home/u")
                 emptyFs).1
              None)
    as (t & _ & Hcli & _).
  - reflexivity.
  - repeat constructor.
  - reflexivity.
  - vm_compute. reflexivity.
  - vm_compute. reflexivity.
  - vm_compute. reflexivity.
  - discriminate.
  - rewrite Hcli. reflexivity.
Defined.

(** X3. When the three commands exit with 0 and the three files can be
    read and written, [createProject] returns the project path, the
    command-line run exits with code 0, [vite.config.js] holds the
    patched text, both CSS files hold the import line, and the trace is
    the six steps in order, ending with the hint [cd] and the project
    name and, for the command line, the closing of the terminal. *)
Theorem successful_run (w : world) (blanks : list delivery)
    (ans : jsstring) (late : list jsstring) (rest : list delivery)
    (s : state) (f1 f2 f3 : fsys)
    (config : jsstring) :
  stdin s = blanks ++ (ans, late) :: rest ->
  Forall (fun d : delivery => forallb is_space d.1 = true) blanks ->
  forallb is_space ans = false ->
  spawn w (scaffoldCommand (trim ans)) (scaffoldDir w) (fs s)
  = (f1, Some 0%Z) ->
  spawn w INSTALL (projectPathOf w (trim ans)) f1 = (f2, Some 0%Z) ->
  spawn w INSTALL_TAILWIND (projectPathOf w (trim ans)) f2
  = (f3, Some 0%Z) ->
  readable f3 (viteConfigPath (projectPathOf w (trim ans))) config ->
  viteConfigPath (projectPathOf w (trim ans)) ∉ unwritable f3 ->
  indexCssPath (projectPathOf w (trim ans)) ∉ unwritable f3 ->
  appCssPath (projectPathOf w (trim ans)) ∉ unwritable f3 ->
  exists f' t,
    f' = written
           (written
              (written f3 (viteConfigPath (projectPathOf w (trim ans)))
                 (patchConfig config))
              (indexCssPath (projectPathOf w (trim ans))) CSS_IMPORT)
           (appCssPath (projectPathOf w (trim ans))) CSS_IMPORT
    /\ t = ConsoleLog banner :: promptEvents (length blanks)
           ++ scaffolded w (trim ans)
           ++ installed (projectPathOf w (trim ans))
           ++ tailwindInstalled (projectPathOf w (trim ans))
           ++ configStarted (projectPathOf w (trim ans))
           ++ configWritten (projectPathOf w (trim ans)) (patchConfig config)
           ++ cssStarted (projectPathOf w (trim ans)) ++ cssDone
           ++ finished (trim ans)
    /\ createProject w s
       = (Ok (projectPathOf w (trim ans)), State f' rest (trace s ++ t))
    /\ cli w s = (Exit 0, State f' rest (trace s ++ t ++ [Close]))
    /\ files f' !! viteConfigPath (projectPathOf w (trim ans))
       = Some (patchConfig config)
    /\ files f' !! indexCssPath (projectPathOf w (trim ans))
       = Some CSS_IMPORT
    /\ files f' !! appCssPath (projectPathOf w (trim ans))
       = Some CSS_IMPORT.
Proof.
  intros Hin Hblank Hans H1 H2 H3 Hread Hwc Hwi Hwa.
  destruct (prompt_nonblank_facts _ _ Hblank Hans) as [Hb Hn].
  destruct (target_paths_distinct (projectPathOf w (trim ans)))
    as (Hvi & Hva & Hia).
  eexists _, _. split; [reflexivity|]. split; [reflexivity|].
  assert (Hcreate : createProject w s
    = (Ok (projectPathOf w (trim ans)),
       State
         (written
            (written
               (written f3 (viteConfigPath (projectPathOf w (trim ans)))
                  (patchConfig config))
               (indexCssPath (projectPathOf w (trim ans))) CSS_IMPORT)
            (appCssPath (projectPathOf w (trim ans))) CSS_IMPORT)
         rest
         (trace s
          ++ ConsoleLog banner :: promptEvents (length blanks)
          ++ scaffolded w (trim ans)
          ++ installed (projectPathOf w (trim ans))
          ++ tailwindInstalled (projectPathOf w (trim ans))
          ++ configStarted (projectPathOf w (trim ans))
          ++ configWritten (projectPathOf w (trim ans)) (patchConfig config)
          ++ cssStarted (projectPathOf w (trim ans)) ++ cssDone
          ++ finished (trim ans)))).
  { rewrite (createProject_named w blanks ans late rest) by done.
    unfold pipeline, bind.
    erewrite step1_ok by (cbn [fs]; exact H1). cbn [fs stdin trace].
    erewrite step2_ok by (cbn [fs]; exact H2). cbn [fs stdin trace].
    erewrite step3_ok by (cbn [fs]; exact H3). cbn [fs stdin trace].
    erewrite (step4_ok _ _ config) by (cbn [fs]; done).
    cbn [fs stdin trace].
    erewrite step5_ok by (cbn [fs written unwritable]; done).
    cbn [fs stdin trace].
    rewrite step6_run. unfold ret. cbn [fs stdin trace].
    rewrite <- ?app_assoc. reflexivity. }
  split; [exact Hcreate|]. split.
  { rewrite cli_run, Hcreate. cbn [fs stdin trace].
    rewrite <- ?app_assoc. reflexivity. }
  unfold written. cbn [files]. split; [|split].
  - rewrite lookup_insert_ne by done. rewrite lookup_insert_ne by done.
    by rewrite lookup_insert_eq.
  - rewrite lookup_insert_ne by done. by rewrite lookup_insert_eq.
  - by rewrite lookup_insert_eq.
Qed.

Lemma successful_run_witness :
  (createProject cliWorld (initial emptyFs demoInput)).1
  = Ok (lit "/home/u/demo")
  /\ (cli cliWorld (initial emptyFs demoInput)).1 = Exit 0
  /\ files (fs (cli cliWorld (initial emptyFs demoInput)).2)
       !! viteConfigPath (projectPathOf cliWorld (trim (lit " demo ")))
     = Some (patchConfig viteConfig).
Proof.
  destruct (successful_run cliWorld
              [([], []); (lit "   ", [])] (lit " demo ") [] []
              (initial emptyFs demoInput)
              (spawnOk (scaffoldCommand (lit "demo")) (lit "/home/u")
                 emptyFs).1
              (spawnOk (scaffoldCommand (lit "demo")) (lit "/home/u")
                 emptyFs).1
              (spawnOk (scaffoldCommand (lit "demo")) (lit "/home/u")
                 emptyFs).1
              viteConfig)
    as (f' & t & Hf & Ht & Hcreate & Hcli & Hv & _).
  - reflexivity.
  - repeat constructor.
  - reflexivity.
  - vm_compute. reflexivity.
  - vm_compute. reflexivity.
  - vm_compute. reflexivity.
  - split; [vm_compute; intros H; inversion H|vm_compute; reflexivity].
  - vm_compute. intros H. inversion H.
  - vm_compute. intros H. inversion H.
  - vm_compute. intros H. inversion H.
  - rewrite Hcreate, Hcli. cbn [fst snd fs].
    split; [vm_compute; reflexivity|]. split; [reflexivity|].
    exact Hv.
Defined.

(** *** How [createProject] can end *)

Lemma promptLoop_outcome (w : world) (fuel : nat) (s : state) :
  match (promptLoop w fuel s).1 with
  | Ok name => name <> []
  | Pending => True
  | Throw _ | Exit _ => False
  end.
Proof.
  revert s. induction fuel as [|fuel IH]; intros s; [done|].
  rewrite promptLoop_S. destruct (stdin s) as [|[a late] rest]; [done|].
  destruct (truthy (trim a)) eqn:E; [|apply IH].
  simpl. by apply truthy_true.
Qed.

(** The prompt stays pending only when every line that reached a
    question was blank. *)
Lemma promptLoop_pending (w : world) (fuel : nat) (s : state) :
  length (stdin s) < fuel ->
  (promptLoop w fuel s).1 = Pending ->
  Forall (fun d : delivery => forallb is_space d.1 = true) (stdin s).
Proof.
  revert s. induction fuel as [|fuel IH]; intros s Hlen; [lia|].
  rewrite promptLoop_S. destruct s as [f [|[a late] rest] t]; [done|].
  cbn [stdin fs trace] in *.
  destruct (truthy (trim a)) eqn:E; [done|].
  intros Hp. constructor.
  - simpl. apply trim_blank. by destruct (trim a).
  - apply IH in Hp; [exact Hp|]. simpl in *. lia.
Qed.

Lemma step1_outcome (w : world) (name p : jsstring) (s : state) :
  match (step1 w name p s).1 with
  | Ok _ => True
  | Throw e => isProcessError e
  | Exit _ | Pending => False
  end.
Proof.
  unfold step1. unfold_run.
  destruct (spawn w (scaffoldCommand name) (scaffoldDir w) (fs s))
    as [f1 code].
  case_bool_decide; simpl; done.
Qed.

Lemma step2_outcome (w : world) (p : jsstring) (s : state) :
  match (step2 w p s).1 with
  | Ok _ => True
  | Throw e => isProcessError e
  | Exit _ | Pending => False
  end.
Proof.
  unfold step2. unfold_run.
  destruct (spawn w INSTALL p (fs s)) as [f1 code].
  case_bool_decide; simpl; done.
Qed.

Lemma step3_outcome (w : world) (p : jsstring) (s : state) :
  match (step3 w p s).1 with
  | Ok _ => True
  | Throw e => isProcessError e
  | Exit _ | Pending => False
  end.
Proof.
  unfold step3. unfold_run.
  destruct (spawn w INSTALL_TAILWIND p (fs s)) as [f1 code].
  case_bool_decide; simpl; done.
Qed.

(** X4. [createProject] never calls [process.exit] and never lets a
    file-system error escape: it returns the project path of a non-empty
    name, or throws the error of a command that did not exit with 0, or
    stays pending on a question, and that only when every line that
    reached a question was blank.  The command-line run calls
    [process.exit(0)] in the first case and [process.exit(1)] in the
    second; in the third it calls neither: the process waits as long as
    the input stays open and ends by itself with status 0 when the
    input has ended. *)
Theorem createProject_outcomes (w : world) (s : state) :
  match (createProject w s).1 with
  | Ok p => exists name, name <> [] /\ p = projectPathOf w name
  | Throw e => isProcessError e
  | Exit _ => False
  | Pending =>
      Forall (fun d : delivery => forallb is_space d.1 = true) (stdin s)
  end
  /\ (cli w s).1
     = match (createProject w s).1 with
       | Ok _ => Exit 0
       | Throw _ => Exit 1
       | Exit code => Exit code
       | Pending => Pending
       end
  /\ exitStatus w (cli w s).1
     = match (createProject w s).1 with
       | Ok _ => Some 0%Z
       | Throw _ => Some 1%Z
       | Exit code => Some code
       | Pending => if stdinEnds w then Some 0%Z else None
       end.
Proof.
  assert (Hcli : (cli w s).1
                 = match (createProject w s).1 with
                   | Ok _ => Exit 0
                   | Throw _ => Exit 1
                   | Exit code => Exit code
                   | Pending => Pending
                   end).
  { rewrite cli_run. by destruct (createProject w s) as [[?|?|?|] ?]. }
  split; [|split; [exact Hcli|]].
  2:{ rewrite Hcli. by destruct (createProject w s) as [[?|?|?|] ?]. }
  clear Hcli.
  unfold createProject, bind at 1 2, emit, promptProjectName.
  match goal with
  | |- context [promptLoop w ?n ?s0] =>
      pose proof (promptLoop_outcome w n s0) as Hname;
      pose proof (promptLoop_pending w n s0) as Hpend;
      destruct (promptLoop w n s0) as [[name|?|?|] s1]
  end; simpl in Hname; try done.
  2:{ simpl in *. apply Hpend; [lia|done]. }
  clear Hpend. unfold pipeline, bind.
  pose proof (step1_outcome w name (projectPathOf w name) s1) as H1.
  destruct (step1 w name (projectPathOf w name) s1) as [[[]|?|?|] s2];
    simpl in H1; try done.
  pose proof (step2_outcome w (projectPathOf w name) s2) as H2.
  destruct (step2 w (projectPathOf w name) s2) as [[[]|?|?|] s3];
    simpl in H2; try done.
  pose proof (step3_outcome w (projectPathOf w name) s3) as H3.
  destruct (step3 w (projectPathOf w name) s3) as [[[]|?|?|] s4];
    simpl in H3; try done.
  destruct (step4_total (projectPathOf w name) s4) as (f4 & t4 & ->).
  match goal with
  | |- context [step5 ?p ?s5] =>
      destruct (step5_run p s5) as (f5 & t5 & -> & _)
  end.
  rewrite step6_run. simpl. by exists name.
Qed.

(** X5. When the command-line run exits, closing the terminal is the
    last thing it has done, it has closed it once, and the exit code is 0
    or 1. *)
Theorem cli_exit_closes_last (w : world) (s s' : state) (code : Z) :
  cli w s = (Exit code, s') ->
  last (trace s') = Some Close
  /\ countClose (trace s') = countClose (trace s) + 1
  /\ (code = 0%Z \/ code = 1%Z).
Proof.
  intros Hcli. destruct (cli_closes_once w s s' code Hcli) as [Hcount Hcode].
  split; [|done]. revert Hcli. rewrite cli_run.
  destruct (createProject_never_closes w s) as [Hne _].
  destruct (createProject w s) as [[a|e|c|] s1]; simpl in *.
  - intros [= <- <-]. cbn [trace]. by rewrite last_snoc.
  - intros [= <- <-]. cbn [trace]. unfold setupFailed.
    change [SpinnerFail (lit "Setup failed"); ConsoleError e; Close]
      with ([SpinnerFail (lit "Setup failed"); ConsoleError e] ++ [Close]).
    by rewrite app_assoc, last_snoc.
  - by destruct (Hne c).
  - done.
Qed.

Lemma cli_exit_closes_last_witness :
  last (trace (cli failingWorld (initial emptyFs demoInput)).2) = Some Close.
Proof.
  destruct (cli_exit_closes_last failingWorld (initial emptyFs demoInput)
              (cli failingWorld (initial emptyFs demoInput)).2 1) as [H _].
  - vm_compute. reflexivity.
  - exact H.
Defined.

(** X6. Whatever the file system does, once the three commands have
    exited with 0 the run exits with code 0: steps 4 and 5 only warn.
    Step 4 always starts, step 5 always attempts both writes, and the
    closing messages are always printed. *)
Theorem commands_succeed_exit_zero (w : world) (blanks : list delivery)
    (ans : jsstring) (late : list jsstring) (rest : list delivery)
    (s : state) (f1 f2 f3 : fsys) :
  stdin s = blanks ++ (ans, late) :: rest ->
  Forall (fun d : delivery => forallb is_space d.1 = true) blanks ->
  forallb is_space ans = false ->
  spawn w (scaffoldCommand (trim ans)) (scaffoldDir w) (fs s)
  = (f1, Some 0%Z) ->
  spawn w INSTALL (projectPathOf w (trim ans)) f1 = (f2, Some 0%Z) ->
  spawn w INSTALL_TAILWIND (projectPathOf w (trim ans)) f2
  = (f3, Some 0%Z) ->
  exists f' t4 t5,
    cli w s
    = (Exit 0,
       State f' rest
         (trace s
          ++ ConsoleLog banner :: promptEvents (length blanks)
          ++ scaffolded w (trim ans)
          ++ installed (projectPathOf w (trim ans))
          ++ tailwindInstalled (projectPathOf w (trim ans))
          ++ configStarted (projectPathOf w (trim ans)) ++ t4
          ++ cssStarted (projectPathOf w (trim ans)) ++ t5
          ++ finished (trim ans) ++ [Close])).
Proof.
  intros Hin Hblank Hans H1 H2 H3.
  destruct (prompt_nonblank_facts _ _ Hblank Hans) as [Hb Hn].
  rewrite cli_run, (createProject_named w blanks ans late rest) by done.
  unfold pipeline, bind.
  erewrite step1_ok by (cbn [fs]; exact H1). cbn [fs stdin trace].
  erewrite step2_ok by (cbn [fs]; exact H2). cbn [fs stdin trace].
  erewrite step3_ok by (cbn [fs]; exact H3). cbn [fs stdin trace].
  match goal with
  | |- context [step4 ?p ?s4] =>
      destruct (step4_total p s4) as (f4 & t4 & ->)
  end.
  cbn [fs stdin trace].
  match goal with
  | |- context [step5 ?p ?s5] =>
      destruct (step5_run p s5) as (f5 & t5 & -> & _)
  end.
  rewrite step6_run. unfold ret. cbn [fs stdin trace].
  exists f5, t4, t5. rewrite <- ?app_assoc. reflexivity.
Qed.

Lemma commands_succeed_exit_zero_witness :
  (cli cliWorld (initial lockedDemoFs demoInput)).1 = Exit 0
  /\ SpinnerFail (lit "Couldn't auto-configure Vite")
     ∈ trace (cli cliWorld (initial lockedDemoFs demoInput)).2
  /\ SpinnerFail (lit "Couldn't configure CSS files")
     ∈ trace (cli cliWorld (initial lockedDemoFs demoInput)).2.
Proof.
  destruct (commands_succeed_exit_zero cliWorld
              [([], []); (lit "   ", [])]
              (lit " demo ") [] [] (initial lockedDemoFs demoInput)
              (spawnOk (scaffoldCommand (lit "demo")) (lit "/home/u")
                 lockedDemoFs).1
              (spawnOk (scaffoldCommand (lit "demo")) (lit "/home/u")
                 lockedDemoFs).1
              (spawnOk (scaffoldCommand (lit "demo")) (lit "/home/u")
                 lockedDemoFs).1)
    as (f' & t4 & t5 & Hcli).
  - reflexivity.
  - repeat constructor.
  - reflexivity.
  - vm_compute. reflexivity.
  - vm_compute. reflexivity.
  - vm_compute. reflexivity.
  - split; [by rewrite Hcli|].
    split; apply list_elem_of_In; vm_compute;
      repeat (first [left; reflexivity | right]).
Defined.

(** X7. A refused write of one CSS file does not keep step 5 from writing
    the other: the step warns instead of reporting success, ends
    normally, and the file system holds whatever write was accepted. *)
Theorem css_write_refused (p : jsstring) (s : state) :
  indexCssPath p ∈ unwritable (fs s) \/ appCssPath p ∈ unwritable (fs s) ->
  exists f',
    step5 p s
    = (Ok tt, State f' (stdin s) (trace s ++ cssStarted p ++ cssWarned))
    /\ (indexCssPath p ∈ unwritable (fs s) ->
        appCssPath p ∉ unwritable (fs s) ->
        f' = written (fs s) (appCssPath p) CSS_IMPORT)
    /\ (indexCssPath p ∉ unwritable (fs s) ->
        appCssPath p ∈ unwritable (fs s) ->
        f' = written (fs s) (indexCssPath p) CSS_IMPORT)
    /\ (indexCssPath p ∈ unwritable (fs s) ->
        appCssPath p ∈ unwritable (fs s) -> f' = fs s).
Proof.
  intros Hrefused. unfold step5. unfold_run.
  destruct (decide (indexCssPath p ∈ unwritable (fs s))) as [H1|H1];
    destruct (decide (appCssPath p ∈ unwritable (fs s))) as [H2|H2].
  - rewrite (bool_decide_eq_true_2 _ H1). cbn [fs stdin trace].
    rewrite (bool_decide_eq_true_2 _ H2).
    eexists. split; [finish_run|]. repeat split; done.
  - rewrite (bool_decide_eq_true_2 _ H1). cbn [fs stdin trace].
    rewrite (bool_decide_eq_false_2 _ H2).
    eexists. split; [finish_run|]. repeat split; done.
  - rewrite (bool_decide_eq_false_2 _ H1).
    cbn [fs stdin trace unwritable].
    rewrite (bool_decide_eq_true_2 _ H2).
    eexists. split; [finish_run|]. repeat split; done.
  - by destruct Hrefused.
Qed.

Lemma css_write_refused_witness :
  files (fs (step5 (lit "/p") (initial lockedIndexFs [])).2)
    !! lit "/p/src/App.css" = Some CSS_IMPORT
  /\ files (fs (step5 (lit "/p") (initial lockedIndexFs [])).2)
       !! lit "/p/src/index.css" = Some (lit "body { margin: 0 }").
Proof.
  destruct (css_write_refused (lit "/p") (initial lockedIndexFs []))
    as (f' & Hstep & Happ & _).
  - left. by_eval.
  - rewrite Hstep. cbn [snd fs]. rewrite Happ.
    + split; vm_compute; reflexivity.
    + by_eval.
    + by_eval.
Defined.

(** X16. When every line that reaches a question is empty or white
    space, the command-line run calls neither [process.exit] nor
    [rl.close()]: it has printed the banner, asked one question more
    than it got answers, complained about each answer, and done nothing
    else; no process was started and no file touched.  While the input
    stays open the process keeps waiting; when the input ends, readline
    closes the interface and the process ends by itself with status 0,
    the status of a successful run. *)
Theorem blank_input_never_starts (w : world) (s : state) :
  Forall (fun d : delivery => forallb is_space d.1 = true) (stdin s) ->
  cli w s
  = (Pending,
     State (fs s) []
       (trace s ++ ConsoleLog banner :: promptEvents (length (stdin s))
        ++ (if stdinEnds w then [InputEnded] else [])))
  /\ Forall (fun e => isProcess e = false /\ isFileAccess e = false
                      /\ isClose e = false)
       (ConsoleLog banner :: promptEvents (length (stdin s))
        ++ (if stdinEnds w then [InputEnded] else []))
  /\ exitStatus w (cli w s).1 = (if stdinEnds w then Some 0%Z else None).
Proof.
  intros Hblank.
  assert (Hcli : cli w s
                 = (Pending,
                    State (fs s) []
                      (trace s
                       ++ ConsoleLog banner
                          :: promptEvents (length (stdin s))
                       ++ (if stdinEnds w then [InputEnded] else [])))).
  { by rewrite cli_run, createProject_blank_input. }
  split; [exact Hcli|]. split.
  - constructor; [done|]. apply Forall_app. split.
    + by apply promptEvents_Forall.
    + destruct (stdinEnds w); by repeat constructor.
  - by rewrite Hcli.
Qed.

Lemma blank_input_never_starts_witness :
  (cli cliWorld (initial emptyFs [([], []); (lit "  ", [])])).1 = Pending
  /\ trace (cli cliWorld (initial emptyFs [([], []); (lit "  ", [])])).2
     = ConsoleLog banner :: promptEvents 2
  /\ exitStatus cliWorld
       (cli cliWorld (initial emptyFs [([], []); (lit "  ", [])])).1
     = None
  /\ trace (cli pipedWorld (initial emptyFs demoChunk)).2
     = ConsoleLog banner :: promptEvents 1 ++ [InputEnded]
  /\ exitStatus pipedWorld (cli pipedWorld (initial emptyFs demoChunk)).1
     = Some 0%Z.
Proof.
  destruct (blank_input_never_starts cliWorld
              (initial emptyFs [([], []); (lit "  ", [])]))
    as (H & _ & He).
  { repeat constructor. }
  destruct (blank_input_never_starts pipedWorld
              (initial emptyFs demoChunk)) as (H' & _ & He').
  { repeat constructor. }
  split; [by rewrite H|]. split; [by rewrite H|].
  split; [exact He|]. split; [by rewrite H'|exact He'].
Defined.

(** ** Further properties of the patch *)

Lemma hasPluginsArray_occurs (s : jsstring) :
  hasPluginsArray s
  <-> exists ws, forallb is_space ws = true
                 /\ occurs (lit "plugins:" ++ ws ++ [LBRACKET]) s.
Proof.
  split.
  - intros (a & ws & b & -> & Hws). exists ws. split; [done|].
    exists a, b. by rewrite <- !app_assoc.
  - intros (ws & Hws & a & b & ->). exists a, ws, b. split; [|done].
    by rewrite <- !app_assoc.
Qed.

Lemma hasPluginsArray_addImport (c : jsstring) :
  hasPluginsArray c -> hasPluginsArray (addImport c).
Proof.
  rewrite !hasPluginsArray_occurs. intros (ws & Hws & Hocc).
  exists ws. split; [done|]. apply occurs_addImport_fwd; [|done].
  rewrite !elem_of_app. intros [H|[H|H]].
  - revert H. by_eval.
  - apply list_elem_of_In in H.
    by rewrite forallb_forall in Hws; specialize (Hws _ H).
  - revert H. by_eval.
Qed.

Lemma addPlugin_adds_call (c : jsstring) :
  hasPluginsArray c -> includes (addPlugin c) TAILWIND_CALL = true.
Proof.
  intros Harr. destruct (addPlugin_cases c) as [| |u ws v _ _ _ _];
    [done|done|].
  apply includes_true. apply occurs_app_r, occurs_app_l.
  exists (lit "plugins: [" ++ NL ++ lit "    "), (lit ","). reflexivity.
Qed.

(** X8. Whenever the text read holds the react import, the text written
    holds the tailwind import line, whether it was there before or not. *)
Theorem patchConfig_adds_import (config : jsstring) :
  occurs REACT_IMPORT config ->
  includes (patchConfig config) TAILWIND_IMPORT = true.
Proof.
  intros Hr. unfold patchConfig. apply addPlugin_keeps_import.
  destruct (addImport_cases config) as [| |pre post _ _ _]; [done|done|].
  apply includes_true. do 3 apply occurs_app_r. apply occurs_app_l.
  apply occurs_refl.
Qed.

Lemma patchConfig_adds_import_witness :
  includes (patchConfig calledConfig) TAILWIND_IMPORT = true.
Proof.
  apply (patchConfig_adds_import calledConfig).
  apply includes_true. vm_compute. reflexivity.
Defined.

(** X9. Whenever the text read holds [plugins:], white space and [[], the
    text written holds the call [tailwindcss()]. *)
Theorem patchConfig_adds_call (config : jsstring) :
  hasPluginsArray config ->
  includes (patchConfig config) TAILWIND_CALL = true.
Proof.
  intros Harr. unfold patchConfig.
  by apply addPlugin_adds_call, hasPluginsArray_addImport.
Qed.

Lemma patchConfig_adds_call_witness :
  includes (patchConfig twoArraysConfig) TAILWIND_CALL = true.
Proof.
  apply (patchConfig_adds_call twoArraysConfig).
  exists (lit "const a = { "), (lit " "), (lit "x()] }" ++ NL
     ++ lit "const b = { plugins:" ++ NL ++ lit "  [y()] }" ++ NL).
  split; reflexivity.
Defined.

(** X10. The patch never removes a marker: a tailwind import line or a
    [tailwindcss()] call in the text read is still in the text written. *)
Theorem patchConfig_keeps_markers (config marker : jsstring) :
  marker = TAILWIND_IMPORT \/ marker = TAILWIND_CALL ->
  includes config marker = true ->
  includes (patchConfig config) marker = true.
Proof.
  intros [->| ->] H; unfold patchConfig.
  - apply addPlugin_keeps_import. by rewrite addImport_guard.
  - assert (Hc : includes (addImport config) TAILWIND_CALL = true).
    { apply includes_true, occurs_addImport_fwd; [by_eval|].
      by apply includes_true. }
    by rewrite addPlugin_guard.
Qed.

Lemma patchConfig_keeps_markers_witness :
  includes (patchConfig importedConfig) TAILWIND_IMPORT = true
  /\ includes (patchConfig calledConfig) TAILWIND_CALL = true.
Proof.
  split.
  - apply (patchConfig_keeps_markers importedConfig TAILWIND_IMPORT);
      [by left|vm_compute; reflexivity].
  - apply (patchConfig_keeps_markers calledConfig TAILWIND_CALL);
      [by right|vm_compute; reflexivity].
Defined.

(** X11. The two insertions do not wait for each other.  A text with a
    [plugins] array but without the react import as the script spells it
    (with double quotes, say) gets the call [tailwindcss()] and no import
    of [tailwindcss]. *)
Theorem patchConfig_call_without_import (config : jsstring) :
  ~ occurs REACT_IMPORT config ->
  includes config TAILWIND_IMPORT = false ->
  hasPluginsArray config ->
  includes (patchConfig config) TAILWIND_CALL = true
  /\ includes (patchConfig config) TAILWIND_IMPORT = false.
Proof.
  intros Hr Ht Harr. unfold patchConfig.
  assert (Hi : addImport config = config).
  { destruct (addImport_cases config) as [| |pre post _ Hc _]; try done.
    destruct Hr. rewrite Hc. by exists pre, post. }
  rewrite Hi. split; [by apply addPlugin_adds_call|].
  apply includes_false. intros H.
  apply occurs_addPlugin_bwd in H; [|by_eval..].
  by apply includes_false in Ht.
Qed.

Lemma patchConfig_call_without_import_witness :
  includes (patchConfig doubleQuotedConfig) TAILWIND_CALL = true
  /\ includes (patchConfig doubleQuotedConfig) TAILWIND_IMPORT = false.
Proof.
  apply (patchConfig_call_without_import doubleQuotedConfig).
  - intros H%includes_true. vm_compute in H. discriminate.
  - vm_compute. reflexivity.
  - exists (lit "import react from " ++ DQUOTE ++ lit "@vitejs/plugin-react"
            ++ DQUOTE ++ NL ++ lit "export default { "),
      (lit " "), (lit "react()] }" ++ NL).
    split; reflexivity.
Defined.

(** *** Only the first array is changed *)

Lemma searchPlugins_before (s : jsstring) (i n : nat) (a ws b : jsstring) :
  searchPlugins s = Some (i, n) ->
  s = a ++ lit "plugins:" ++ ws ++ [LBRACKET] ++ b ->
  forallb is_space ws = true ->
  i <= length a.
Proof.
  revert i a. induction s as [|c s IH]; intros i a; simpl; [done|].
  destruct (matchPluginsHere (c :: s)) as [m|] eqn:E.
  { intros [= <- <-] _ _. lia. }
  destruct (searchPlugins s) as [[j m]|] eqn:Ej; simpl; [|done].
  intros [= <- <-] Hs Hws. destruct a as [|x a].
  - simpl in Hs. rewrite Hs in E.
    change (?x :: ?y) with (lit "plugins:" ++ ws ++ [LBRACKET] ++ b) in E.
    by rewrite matchPluginsHere_complete in E.
  - injection Hs as -> ->. simpl. specialize (IH j a eq_refl eq_refl Hws).
    lia.
Qed.

Lemma spaces_then_bracket (ws ws' v v' : jsstring) :
  forallb is_space ws = true -> forallb is_space ws' = true ->
  ws ++ LBRACKET :: v = ws' ++ LBRACKET :: v' ->
  ws = ws' /\ v = v'.
Proof.
  intros Hws Hws' Heq.
  assert (Hlen : length ws = length ws').
  { rewrite <- (spanSpaces_spec ws v LBRACKET) by done.
    rewrite <- (spanSpaces_spec ws' v' LBRACKET) by done.
    by rewrite Heq. }
  apply app_inj_1 in Heq as [-> Heq]; [|done]. by injection Heq as ->.
Qed.

Lemma plugins_no_overlap (d : nat) (ws : jsstring) :
  0 < d -> forallb is_space ws = true ->
  (lit "plugins:" ++ ws) !! d <> Some 112%N.
Proof.
  intros Hd Hws Hl.
  destruct (decide (d < 8)) as [Hlt|Hge].
  - rewrite lookup_app_l in Hl by (simpl; lia).
    do 8 (destruct d as [|d]; [by (lia || discriminate Hl)|]). lia.
  - rewrite lookup_app_r in Hl by (simpl; lia).
    apply list_elem_of_lookup_2, list_elem_of_In in Hl.
    rewrite forallb_forall in Hws. specialize (Hws _ Hl). discriminate.
Qed.

(** X12. With several [plugins] arrays in the text, only the first one is
    changed: the text before it and the whole text after its bracket are
    kept as they are, later arrays included. *)
Theorem addPlugin_first_array_only (config u ws v : jsstring) :
  includes config TAILWIND_CALL = false ->
  config = u ++ lit "plugins:" ++ ws ++ [LBRACKET] ++ v ->
  forallb is_space ws = true ->
  ~ hasPluginsArray (u ++ lit "plugins:" ++ ws) ->
  addPlugin config = u ++ PLUGINS_ENTRY ++ v.
Proof.
  intros Hcall Hc Hws Hfirst.
  destruct (addPlugin_cases config) as [|_ Hno|u' ws' v' _ Hc' Hws' Hs].
  - congruence.
  - destruct Hno. by exists u, ws, v.
  - pose proof (searchPlugins_before _ _ _ _ _ _ Hs Hc Hws) as Hle.
    destruct (decide (length u' = length u)) as [Hlen|Hlen].
    { rewrite Hc in Hc'. apply app_inj_1 in Hc' as [-> Hc']; [|done].
      apply app_inv_head in Hc'.
      apply spaces_then_bracket in Hc' as [-> ->]; done. }
    exfalso.
    set (e := length u' + 8 + length ws').
    set (k := length u + 8 + length ws).
    destruct (decide (e < k)) as [Hek|Hek].
    + apply Hfirst. exists u', ws'. 
      exists (take (k - S e) v'). split; [|done].
      assert (Hk : take k config = u ++ lit "plugins:" ++ ws).
      { rewrite Hc. rewrite !app_assoc.
        rewrite <- (app_assoc _ [LBRACKET] v).
        rewrite take_app_length'; [by rewrite <- !app_assoc|].
        rewrite !length_app. simpl. unfold k. lia. }
      rewrite <- Hk, Hc'. rewrite !app_assoc.
      rewrite take_app_ge; rewrite !length_app; simpl; [|unfold e in *; lia].
      rewrite <- !app_assoc. do 4 f_equal. f_equal. unfold e, k. lia.
    + assert (Hp : config !! length u = Some 112%N).
      { rewrite Hc. by rewrite lookup_app_r, Nat.sub_diag by lia. }
      rewrite Hc' in Hp. rewrite lookup_app_r in Hp by lia.
      rewrite app_assoc in Hp.
      rewrite lookup_app_l in Hp
        by (rewrite length_app; simpl; unfold e, k in *; lia).
      revert Hp. apply plugins_no_overlap; [lia|done].
Qed.

Lemma addPlugin_first_array_only_witness :
  addPlugin twoArraysConfig
  = lit "const a = { " ++ PLUGINS_ENTRY ++ lit "x()] }" ++ NL
    ++ lit "const b = { plugins:" ++ NL ++ lit "  [y()] }" ++ NL.
Proof.
  apply (addPlugin_first_array_only twoArraysConfig (lit "const a = { ")
           (lit " ")
           (lit "x()] }" ++ NL
            ++ lit "const b = { plugins:" ++ NL ++ lit "  [y()] }" ++ NL)).
  - vm_compute. reflexivity.
  - reflexivity.
  - reflexivity.
  - intros H. apply searchPlugins_None in H; [exact H|].
    vm_compute. reflexivity.
Defined.

Lemma step4_fs (p : jsstring) (s : state) :
  fs (step4 p s).2 = fs s
  \/ exists data, fs (step4 p s).2 = written (fs s) (viteConfigPath p) data.
Proof.
  destruct (decide (viteConfigPath p ∈ unreadable (fs s))) as [Hu|Hu].
  { rewrite step4_read_fail by (by left). by left. }
  destruct (files (fs s) !! viteConfigPath p) as [config|] eqn:Hl.
  2:{ rewrite step4_read_fail by (by right). by left. }
  destruct (decide (viteConfigPath p ∈ unwritable (fs s))) as [Hw|Hw].
  - rewrite (step4_write_fail p s config) by done. by left.
  - rewrite (step4_ok p s config) by done. right. by eexists.
Qed.

Lemma step5_fs (p : jsstring) (s : state) :
  exists f1,
    (f1 = fs s \/ f1 = written (fs s) (indexCssPath p) CSS_IMPORT)
    /\ (fs (step5 p s).2 = f1
        \/ fs (step5 p s).2 = written f1 (appCssPath p) CSS_IMPORT).
Proof.
  unfold step5. unfold_run.
  destruct (bool_decide (indexCssPath p ∈ unwritable (fs s)));
    cbn [fs stdin trace unwritable];
    destruct (bool_decide (appCssPath p ∈ unwritable (fs s)));
    cbn [fs stdin trace snd].
  - exists (fs s). split; [by left|by left].
  - exists (fs s). split; [by left|by right].
  - exists (written (fs s) (indexCssPath p) CSS_IMPORT).
    split; [by right|by left].
  - exists (written (fs s) (indexCssPath p) CSS_IMPORT).
    split; [by right|by right].
Qed.

Lemma written_lookup_ne (f : fsys) (p q data : jsstring) :
  q <> p -> files (written f p data) !! q = files f !! q.
Proof. intros H. unfold written. cbn [files]. by rewrite lookup_insert_ne. Qed.

(** X13. Steps 4 and 5 keep out of each other's files, whatever the
    project path: step 4 leaves both CSS files as they are, and step 5
    leaves [vite.config.js] as step 4 left it. *)
Theorem config_and_css_do_not_clash (p : jsstring) (s : state) :
  files (fs (step4 p s).2) !! indexCssPath p = files (fs s) !! indexCssPath p
  /\ files (fs (step4 p s).2) !! appCssPath p = files (fs s) !! appCssPath p
  /\ files (fs (step5 p s).2) !! viteConfigPath p
     = files (fs s) !! viteConfigPath p.
Proof.
  destruct (target_paths_distinct p) as (Hvi & Hva & Hia).
  split; [|split].
  - destruct (step4_fs p s) as [->|[data ->]]; [done|].
    by apply written_lookup_ne.
  - destruct (step4_fs p s) as [->|[data ->]]; [done|].
    by apply written_lookup_ne.
  - destruct (step5_fs p s) as (f1 & Hf1 & Hf).
    assert (H1 : files f1 !! viteConfigPath p = files (fs s) !! viteConfigPath p).
    { destruct Hf1 as [->| ->]; [done|]. by apply written_lookup_ne. }
    destruct Hf as [->| ->]; [done|]. by rewrite written_lookup_ne.
Qed.

(** X14. Steps 4, 5 and 6 change no file but [vite.config.js],
    [src/index.css] and [src/App.css] under the project path, and they
    change no permission. *)
Theorem best_effort_steps_frame (p name q : jsstring) (s : state) :
  q <> viteConfigPath p -> q <> indexCssPath p -> q <> appCssPath p ->
  files (fs (step4 p s).2) !! q = files (fs s) !! q
  /\ files (fs (step5 p s).2) !! q = files (fs s) !! q
  /\ fs (step6 name s).2 = fs s
  /\ unwritable (fs (step4 p s).2) = unwritable (fs s)
  /\ unwritable (fs (step5 p s).2) = unwritable (fs s)
  /\ unreadable (fs (step4 p s).2) = unreadable (fs s)
  /\ unreadable (fs (step5 p s).2) = unreadable (fs s).
Proof.
  intros Hv Hi Ha.
  destruct (step4_fs p s) as [E4|[data E4]];
    destruct (step5_fs p s) as (f1 & [Ef1|Ef1] & [E5|E5]);
    rewrite E4, E5, Ef1, step6_run; cbn [snd fs];
    rewrite ?written_lookup_ne by done; done.
Qed.

Lemma best_effort_steps_frame_witness :
  files (fs (step5 (lit "/p") (step4 (lit "/p") (initial projectFs [])).2).2)
    !! lit "/p/package.json" = Some (lit "{}").
Proof.
  destruct (best_effort_steps_frame (lit "/p") (lit "p")
              (lit "/p/package.json") (initial projectFs []))
    as (H4 & _); [by_eval..|].
  destruct (best_effort_steps_frame (lit "/p") (lit "p")
              (lit "/p/package.json")
              (step4 (lit "/p") (initial projectFs [])).2)
    as (_ & H5 & _); [by_eval..|].
  rewrite H5, H4. vm_compute. reflexivity.
Defined.
